(** * RatioFlip AI: the generation client and the session state machine

    A shallow embedding of [services/geminiService.ts] (the generation
    client), of the state handlers of [App.tsx] and of the callback contract
    of [components/Uploader.tsx], together with the properties the
    specification states about them.

    Conventions.
    - A JavaScript string is a [string] (a sequence of 8-bit code units; the
      strings the program handles are data URIs, MIME types and messages,
      all ASCII).  A value that is a string or [undefined] is an
      [option string].
    - An asynchronous function is a computation in the monad [Promise]: it
      threads the observable world (clients constructed, requests issued,
      console output) and either resolves with a value or rejects with a
      thrown error.
    - The component is its four state cells; a session is the component
      together with the runs of [handleGenerate] that are suspended at an
      [await], and it moves by events: the user acts on a rendered control,
      a timer elapses, the remote endpoint answers. *)

From Stdlib Require Import String Ascii List Bool Arith Lia.
From Stdlib Require Import ZArith DecimalString DecimalZ.
Import ListNotations.

Local Open Scope string_scope.
Local Open Scope list_scope.

(* ================================================================== *)
(** * JavaScript primitives used by the program *)
(* ================================================================== *)

Module Js.

(** Truthiness of a value that is a string or [undefined]: [undefined]
    and the empty string are falsy. *)
Definition truthy (v : option string) : bool :=
  match v with
  | Some (String _ _) => true
  | Some EmptyString => false
  | None => false
  end.

(** [v || d] where [d] is a string. *)
Definition or_else (v : option string) (d : string) : string :=
  match v with
  | Some (String c s) => String c s
  | Some EmptyString => d
  | None => d
  end.

(** [s || d] for a string [s]. *)
Definition str_or_else (s d : string) : string := or_else (Some s) d.

(** Interpolation [${v}] in a template literal. *)
Definition template (v : option string) : string :=
  match v with
  | Some s => s
  | None => "undefined"
  end.

(** [s.split(sep)] for a one-character separator: the segments between
    the separators, in order; never empty. *)
Fixpoint split (sep : ascii) (s : string) : list string :=
  match s with
  | EmptyString => [EmptyString]
  | String c s' =>
      if Ascii.eqb c sep then EmptyString :: split sep s'
      else match split sep s' with
           | seg :: rest => String c seg :: rest
           | [] => [String c EmptyString]
           end
  end.

(** [a[i]] on an array: [undefined] out of range. *)
Definition index {A : Type} (a : list A) (i : nat) : option A := nth_error a i.

(** Line terminators, which [.] does not match (without the [s] flag): of
    the four of the language, the two that an 8-bit code unit can be. *)
Definition is_line_terminator (c : ascii) : bool :=
  Ascii.eqb c "010"%char || Ascii.eqb c "013"%char.

(** The backtracking matcher for a greedy dot-star group followed by the
    literal [lit], anchored at the start of [s]: the longest run of
    non-terminators that is followed by [lit] is captured. *)
Fixpoint dot_star_then (lit s : string) : option string :=
  match s with
  | EmptyString => if String.prefix lit s then Some EmptyString else None
  | String c s' =>
      match (if is_line_terminator c then None else dot_star_then lit s') with
      | Some m => Some (String c m)
      | None => if String.prefix lit s then Some EmptyString else None
      end
  end.

(** [s] with the prefix [p] removed, when [s] starts with [p]. *)
Fixpoint strip_prefix (p s : string) : option string :=
  match p, s with
  | EmptyString, _ => Some s
  | String a p', String b s' => if Ascii.eqb a b then strip_prefix p' s' else None
  | String _ _, EmptyString => None
  end.

(** [s.match(re)] for the regular expression of [handleImageSelected]
    (anchored [data:], a greedy dot-star group, then [;base64,]): the
    capture group [match[1]] on a match, [None] for [null]. *)
Definition match_data_uri (s : string) : option string :=
  match strip_prefix "data:" s with
  | Some r => dot_star_then ";base64," r
  | None => None
  end.

End Js.

(* ================================================================== *)
(** * Thrown errors *)
(* ================================================================== *)

(** A thrown value, seen through the only property the program reads:
  its [message], which may be absent. *)
Record JsError : Type := { message : option string }.

(** [new Error(msg)]. *)
Definition new_Error (msg : string) : JsError := {| message := Some msg |}.

(* ================================================================== *)
(** * The remote API's request and response types *)
(* ================================================================== *)

(** Modelled from the spec: the request and response types are declared by
  the [@google/genai] package, which is not part of the repository.  As the
  specification's external-interface section describes them, a response
  is a candidate list (possibly absent), each candidate has content parts,
  and an inline part holds base64 text with a MIME label; a request holds a
  model name, content parts and an aspect-ratio configuration. *)
Module GenAI.

Record Blob : Type := { data : option string; mimeType : option string }.

Record Part : Type := { inlineData : option Blob; text : option string }.

Record Content : Type := { parts : list Part }.

Record ImageConfig : Type := { aspectRatio : string }.

Record GenerateContentConfig : Type := { imageConfig : ImageConfig }.

Record GenerateContentParameters : Type :=
  { model : string; contents : Content; config : GenerateContentConfig }.

Record Candidate : Type := { content : Content }.

Record GenerateContentResponse : Type := { candidates : option (list Candidate) }.

End GenAI.

(* ================================================================== *)
(** * Asynchronous computations *)
(* ================================================================== *)

(** What the outside observes of a run: the API keys clients were
  constructed with, the requests handed to the network layer, and the
  errors written to the console, each in order. *)
Record World : Type :=
  { clients : list (option string);
    network : list GenAI.GenerateContentParameters;
    console : list JsError }.

Definition World_add_client (k : option string) (w : World) : World :=
  {| clients := clients w ++ [k]; network := network w; console := console w |}.

Definition World_add_request (r : GenAI.GenerateContentParameters) (w : World) : World :=
  {| clients := clients w; network := network w ++ [r]; console := console w |}.

Definition World_add_console (e : JsError) (w : World) : World :=
  {| clients := clients w; network := network w; console := console w ++ [e] |}.

(** A settled promise: rejected with a thrown error, or resolved. *)
Definition Settled (A : Type) : Type := (JsError + A)%type.

(** An asynchronous computation, run to its settlement. *)
Definition Promise (A : Type) : Type := World -> World * Settled A.

Definition resolve {A : Type} (a : A) : Promise A := fun w => (w, inr a).

Definition throw {A : Type} (e : JsError) : Promise A := fun w => (w, inl e).

Definition bind {A B : Type} (m : Promise A) (k : A -> Promise B) : Promise B :=
  fun w =>
    match m w with
    | (w', inr a) => k a w'
    | (w', inl e) => (w', inl e)
    end.

(** [try { body } catch (error) { handler }]. *)
Definition try_catch {A : Type} (body : Promise A) (handler : JsError -> Promise A)
  : Promise A :=
  fun w =>
    match body w with
    | (w', inr a) => (w', inr a)
    | (w', inl e) => handler e w'
    end.

Declare Scope promise_scope.
Delimit Scope promise_scope with promise.
Notation "x <- m ;; k" := (bind m (fun x => k))
  (at level 61, m at next level, right associativity) : promise_scope.
Notation "m ;; k" := (bind m (fun _ => k))
  (at level 61, right associativity) : promise_scope.

(* ================================================================== *)
(** * services/geminiService.ts *)
(* ================================================================== *)

(** [process.env], of which the program reads one variable. *)
Record ProcessEnv : Type := { API_KEY : option string }.

Definition AI_MODEL : string := "gemini-2.5-flash-image".

Definition DEFAULT_PROMPT : string :=
  "Transform this image to 9:16 portrait aspect ratio, maintaining the subject and style.".

(** The [for (const part of parts)] loop with its [break]: [imageUri] is
    assigned at the first part that has [inlineData], and the loop stops. *)
Fixpoint scan_parts (parts : list GenAI.Part) (imageUri : option string) : option string :=
  match parts with
  | [] => imageUri
  | part :: rest =>
      match GenAI.inlineData part with
      | Some inlineData =>
          let base64Data := GenAI.data inlineData in
          Some ("data:image/png;base64," ++ Js.template base64Data)%string
      | None => scan_parts rest imageUri
      end
  end.

Section Client.

(** The process environment and the remote endpoint: what the hosted model
    answers to a request, or the error the transport raises. *)
Variable env : ProcessEnv.
Variable remote : GenAI.GenerateContentParameters -> Settled GenAI.GenerateContentResponse.

(** [new GoogleGenAI({ apiKey })]. *)
Definition new_GoogleGenAI (apiKey : option string) : Promise unit :=
  fun w => (World_add_client apiKey w, inr tt).

(** [await ai.models.generateContent(request)]: one request handed to the
    network layer. *)
Definition generateContent (request : GenAI.GenerateContentParameters)
  : Promise GenAI.GenerateContentResponse :=
  fun w => (World_add_request request w, remote request).

Definition console_error (error : JsError) : Promise unit :=
  fun w => (World_add_console error w, inr tt).

(** The argument of [generateContent]. *)
Definition request_of (imageBase64 : option string) (mimeType prompt : string)
  : GenAI.GenerateContentParameters :=
  {| GenAI.model := AI_MODEL;
     GenAI.contents :=
       {| GenAI.parts :=
            [ {| GenAI.inlineData :=
                   Some {| GenAI.data := imageBase64;
                           GenAI.mimeType := Some mimeType |};
                 GenAI.text := None |};
              {| GenAI.inlineData := None;
                 GenAI.text := Some (Js.str_or_else prompt DEFAULT_PROMPT) |} ] |};
     GenAI.config := {| GenAI.imageConfig := {| GenAI.aspectRatio := "9:16" |} |} |}.

(** The statements after the [await], inside the [try].  [!candidates] holds
    of an absent list, [!imageUri] of [null] and of the empty string. *)
Definition read_response (response : GenAI.GenerateContentResponse) : Promise string :=
  let candidates := GenAI.candidates response in
  match candidates with
  | None => throw (new_Error "No candidates returned from Gemini.")
  | Some [] => throw (new_Error "No candidates returned from Gemini.")
  | Some (candidate0 :: _) =>
      let parts := GenAI.parts (GenAI.content candidate0) in
      let imageUri := scan_parts parts None in
      match imageUri with
      | None => throw (new_Error "No image generated in the response.")
      | Some EmptyString => throw (new_Error "No image generated in the response.")
      | Some (String c uri) => resolve (String c uri)
      end
  end.

(** The body of the [try] block. *)
Definition try_body (imageBase64 : option string) (mimeType prompt : string)
  : Promise string :=
  (response <- generateContent (request_of imageBase64 mimeType prompt) ;;
   read_response response)%promise.

(** The [catch] block. *)
Definition catch_block (error : JsError) : Promise string :=
  (console_error error ;;
   throw (new_Error (Js.or_else (message error) "Failed to generate image.")))%promise.

(** The signature declares [imageBase64] a string; types are erased at run
    time, and the caller passes [base64.split(',')[1]], which is [undefined]
    when the uploaded string holds no comma. *)
Definition generateVerticalImage (imageBase64 : option string) (mimeType prompt : string)
  : Promise string :=
  if negb (Js.truthy (API_KEY env))
  then throw (new_Error "API Key is missing. Please check your environment configuration.")
  else
    (new_GoogleGenAI (API_KEY env) ;;
     try_catch (try_body imageBase64 mimeType prompt) catch_block)%promise.

End Client.

(** The client from the point where [generateContent] settles with
    [outcome]: the rest of the [try] block under its [catch]. *)
Definition after_await (outcome : Settled GenAI.GenerateContentResponse) : Promise string :=
  try_catch (response <- (fun w => (w, outcome)) ;; read_response response)%promise
            catch_block.

(* ================================================================== *)
(** * types.ts *)
(* ================================================================== *)

(** The browser's [File], of which the program reads the MIME type. *)
Record File : Type := { name : string; type : string }.

Record ProcessingState : Type :=
  { isLoading : bool; error : option string; progress : string }.

Record ImageUpload : Type :=
  { file : File; previewUrl : string; base64 : option string; mimeType : string }.

(* ================================================================== *)
(** * App.tsx: component state and handlers *)
(* ================================================================== *)

(** The four [useState] cells of [App]. *)
Record AppState : Type :=
  { sourceImage : option ImageUpload;
    generatedImage : option string;
    prompt : string;
    processing : ProcessingState }.

Definition setSourceImage (v : option ImageUpload) (s : AppState) : AppState :=
  {| sourceImage := v; generatedImage := generatedImage s;
     prompt := prompt s; processing := processing s |}.

Definition setGeneratedImage (v : option string) (s : AppState) : AppState :=
  {| sourceImage := sourceImage s; generatedImage := v;
     prompt := prompt s; processing := processing s |}.

Definition setPrompt (v : string) (s : AppState) : AppState :=
  {| sourceImage := sourceImage s; generatedImage := generatedImage s;
     prompt := v; processing := processing s |}.

(** [setProcessing(prev => update(prev))]; a plain value [v] is the update
    [fun _ => v]. *)
Definition setProcessing (update : ProcessingState -> ProcessingState) (s : AppState)
  : AppState :=
  {| sourceImage := sourceImage s; generatedImage := generatedImage s;
     prompt := prompt s; processing := update (processing s) |}.

(** The state of the first render. *)
Definition initialState : AppState :=
  {| sourceImage := None;
     generatedImage := None;
     prompt := "Convert this landscape image to a 9:16 portrait composition, expanding the background naturally.";
     processing := {| isLoading := false; error := None; progress := "" |} |}.

Definition handleImageSelected (file : File) (base64 : string) (s : AppState) : AppState :=
  let match_ := Js.match_data_uri base64 in
  let mimeType := match match_ with
                  | Some group1 => group1
                  | None => type file
                  end in
  let s := setSourceImage
             (Some {| file := file;
                      previewUrl := base64;
                      base64 := Js.index (Js.split "," base64) 1;
                      mimeType := mimeType |}) s in
  let s := setGeneratedImage None s in
  setProcessing (fun _ => {| isLoading := false; error := None; progress := "" |}) s.

Definition handleClear (s : AppState) : AppState :=
  let s := setSourceImage None s in
  let s := setGeneratedImage None s in
  setProcessing (fun _ => {| isLoading := false; error := None; progress := "" |}) s.

(** ** [handleGenerate], statement by statement *)

(** [setProcessing({ isLoading: true, error: null, progress: 'Analyzing image...' })]. *)
Definition generate_started (s : AppState) : AppState :=
  setProcessing
    (fun _ => {| isLoading := true; error := None; progress := "Analyzing image..." |}) s.

(** After the 500 ms timer: the progress label changes. *)
Definition generate_delayed (s : AppState) : AppState :=
  setProcessing
    (fun prev => {| isLoading := isLoading prev; error := error prev;
                    progress := "Generating new aspect ratio..." |}) s.

(** [setGeneratedImage(resultUrl)] when the client resolves. *)
Definition generate_resolved (resultUrl : string) (s : AppState) : AppState :=
  setGeneratedImage (Some resultUrl) s.

(** The [catch] block when the client rejects. *)
Definition generate_rejected (err : JsError) (s : AppState) : AppState :=
  setProcessing
    (fun prev => {| isLoading := isLoading prev;
                    error := Some (Js.or_else (message err) "Something went wrong");
                    progress := progress prev |}) s.

(** The [finally] block. *)
Definition generate_finally (s : AppState) : AppState :=
  setProcessing
    (fun prev => {| isLoading := false; error := error prev; progress := "" |}) s.

(** What [handleGenerate] does once the client has settled. *)
Definition generate_settled (r : Settled string) (s : AppState) : AppState :=
  generate_finally
    (match r with
     | inr resultUrl => generate_resolved resultUrl s
     | inl err => generate_rejected err s
     end).

Section Orchestration.

(** The imported generation client. *)
Variable client : option string -> string -> string -> Promise string.

(** One run of [handleGenerate] from the click to the end of its [finally]
    block, with no other event in between.  The handler reads [sourceImage]
    and [prompt] as they were at the render that created it. *)
Definition handleGenerate (s : AppState) (w : World) : AppState * World :=
  match sourceImage s with
  | None => (s, w)
  | Some image =>
      let s1 := generate_started s in
      let s2 := generate_delayed s1 in
      let (w', r) := client (base64 image) (mimeType image) (prompt s) w in
      (generate_settled r s2, w')
  end.

End Orchestration.

(** ** What the rendered controls allow (the JSX of [App]) *)

(** [{!sourceImage ? <Uploader ... /> : ...}]. *)
Definition uploader_rendered (s : AppState) : bool :=
  match sourceImage s with None => true | Some _ => false end.

(** [<Uploader disabled={processing.isLoading} />]. *)
Definition uploader_disabled (s : AppState) : bool := isLoading (processing s).

(** The trash button: [{sourceImage && <button disabled={processing.isLoading}>}]. *)
Definition trash_rendered (s : AppState) : bool :=
  match sourceImage s with None => false | Some _ => true end.

Definition trash_disabled (s : AppState) : bool := isLoading (processing s).

(** The "Change Image" button over the preview: rendered with the preview,
    and it carries no [disabled] attribute. *)
Definition change_image_rendered (s : AppState) : bool :=
  match sourceImage s with None => false | Some _ => true end.

(** The generate button: [disabled={!sourceImage || processing.isLoading}]. *)
Definition generate_disabled (s : AppState) : bool :=
  negb (match sourceImage s with None => false | Some _ => true end)
  || isLoading (processing s).

(** The regenerate button: [{generatedImage && <button disabled={processing.isLoading}>}]. *)
Definition regenerate_rendered (s : AppState) : bool := Js.truthy (generatedImage s).

Definition regenerate_disabled (s : AppState) : bool := isLoading (processing s).

(** The prompt [textarea]: [disabled={processing.isLoading}]. *)
Definition prompt_disabled (s : AppState) : bool := isLoading (processing s).

(** ** The session: the component and its unfinished runs of [handleGenerate] *)

(** A run of [handleGenerate] is suspended at one of its two [await]s: the
    500 ms timer, or the client, whose request is then with the network. *)
Inductive RunPhase : Type :=
| Delaying
| InFlight (request : GenAI.GenerateContentParameters).

(** A suspended run keeps the [sourceImage] and [prompt] of the render in
    which the click happened. *)
Record Run : Type :=
  { run_image : ImageUpload; run_prompt : string; run_phase : RunPhase }.

Record Session : Type :=
  { app : AppState; runs : list Run; world : World }.

Definition initialSession : Session :=
  {| app := initialState;
     runs := [];
     world := {| clients := []; network := []; console := [] |} |}.

(** What can happen to a session: the user acts on a control, the timer of
    the [i]-th unfinished run elapses, or the remote endpoint answers the
    request of the [i]-th unfinished run. *)
Inductive Event : Type :=
| Upload (file : File) (dataUrl : string)
| ClickTrash
| ClickChangeImage
| ClickGenerate
| ClickRegenerate
| TypePrompt (value : string)
| TimerElapsed (i : nat)
| RemoteSettled (i : nat) (outcome : Settled GenAI.GenerateContentResponse).

Definition with_app (s : AppState) (x : Session) : Session :=
  {| app := s; runs := runs x; world := world x |}.

Definition remove_nth {A : Type} (i : nat) (l : list A) : list A :=
  firstn i l ++ skipn (S i) l.

Definition replace_nth {A : Type} (i : nat) (a : A) (l : list A) : list A :=
  firstn i l ++ a :: skipn (S i) l.

(** The requests that are with the network and not yet answered. *)
Fixpoint outstanding (l : list Run) : list GenAI.GenerateContentParameters :=
  match l with
  | [] => []
  | run :: rest =>
      match run_phase run with
      | InFlight request => request :: outstanding rest
      | Delaying => outstanding rest
      end
  end.

Section Session.

Variable env : ProcessEnv.

(** [generateVerticalImage] up to its [await]: the credential check, the
    client construction, and the request handed to the network. *)
Definition client_begin (imageBase64 : option string) (mimeType prompt : string)
  : Promise GenAI.GenerateContentParameters :=
  if negb (Js.truthy (API_KEY env))
  then throw (new_Error "API Key is missing. Please check your environment configuration.")
  else
    (new_GoogleGenAI (API_KEY env) ;;
     (fun w => let request := request_of imageBase64 mimeType prompt in
               (World_add_request request w, inr request)))%promise.

(** [handleGenerate] from the click to its first [await]. *)
Definition begin_generate (x : Session) : Session :=
  let s := app x in
  match sourceImage s with
  | None => x
  | Some image =>
      {| app := generate_started s;
         runs := runs x ++ [ {| run_image := image; run_prompt := prompt s;
                                run_phase := Delaying |} ];
         world := world x |}
  end.

(** The [i]-th run resumes after its timer and calls the client, which
    either rejects at once (the run then finishes) or issues its request. *)
Definition resume_after_timer (i : nat) (run : Run) (x : Session) : Session :=
  let s := generate_delayed (app x) in
  let image := run_image run in
  match client_begin (base64 image) (mimeType image) (run_prompt run) (world x) with
  | (w, inl err) =>
      {| app := generate_settled (inl err) s; runs := remove_nth i (runs x); world := w |}
  | (w, inr request) =>
      {| app := s;
         runs := replace_nth i {| run_image := image; run_prompt := run_prompt run;
                                  run_phase := InFlight request |} (runs x);
         world := w |}
  end.

(** The [i]-th run resumes when its request is answered, and finishes. *)
Definition resume_after_client (i : nat)
    (outcome : Settled GenAI.GenerateContentResponse) (x : Session) : Session :=
  let (w, r) := after_await outcome (world x) in
  {| app := generate_settled r (app x); runs := remove_nth i (runs x); world := w |}.

(** One event.  An event on a control that is not rendered or is disabled,
    or for a run that is not waiting for it, changes nothing.  The uploader
    ([processFile]) turns away a file whose type does not start with
    [image/]; reading the file and calling [onImageSelected] is one event. *)
Definition step (e : Event) (x : Session) : Session :=
  let s := app x in
  match e with
  | Upload file dataUrl =>
      if uploader_rendered s && negb (uploader_disabled s)
         && String.prefix "image/" (type file)
      then with_app (handleImageSelected file dataUrl s) x
      else x
  | ClickTrash =>
      if trash_rendered s && negb (trash_disabled s)
      then with_app (handleClear s) x else x
  | ClickChangeImage =>
      if change_image_rendered s then with_app (handleClear s) x else x
  | ClickGenerate =>
      if generate_disabled s then x else begin_generate x
  | ClickRegenerate =>
      if regenerate_rendered s && negb (regenerate_disabled s)
      then begin_generate x else x
  | TypePrompt value =>
      if prompt_disabled s then x else with_app (setPrompt value s) x
  | TimerElapsed i =>
      match nth_error (runs x) i with
      | Some run =>
          match run_phase run with
          | Delaying => resume_after_timer i run x
          | InFlight _ => x
          end
      | None => x
      end
  | RemoteSettled i outcome =>
      match nth_error (runs x) i with
      | Some run =>
          match run_phase run with
          | InFlight _ => resume_after_client i outcome x
          | Delaying => x
          end
      | None => x
      end
  end.

(** A sequence of events, oldest first. *)
Definition run_events (es : list Event) (x : Session) : Session :=
  fold_left (fun acc e => step e acc) es x.

End Session.

(* ================================================================== *)
(** * Predicates of the statements, and concrete inputs *)
(* ================================================================== *)

Definition env_configured : ProcessEnv := {| API_KEY := Some "test-key" |}.

Definition env_unset : ProcessEnv := {| API_KEY := None |}.

Definition empty_world : World := {| clients := []; network := []; console := [] |}.

Definition text_part (t : string) : GenAI.Part :=
  {| GenAI.inlineData := None; GenAI.text := Some t |}.

Definition inline_part (payload : string) : GenAI.Part :=
  {| GenAI.inlineData :=
       Some {| GenAI.data := Some payload; GenAI.mimeType := Some "image/png" |};
     GenAI.text := None |}.

Definition candidate_of (ps : list GenAI.Part) : GenAI.Candidate :=
  {| GenAI.content := {| GenAI.parts := ps |} |}.

(** One candidate: a caption, then two images. *)
Definition response_two_images : GenAI.GenerateContentResponse :=
  {| GenAI.candidates :=
       Some [ candidate_of [ text_part "Here you go"; inline_part "QkxVRQ==";
                             inline_part "R1JFRU4=" ] ] |}.

(** Two candidates: the first holds text only, the second an image. *)
Definition response_image_in_second_candidate : GenAI.GenerateContentResponse :=
  {| GenAI.candidates :=
       Some [ candidate_of [ text_part "I cannot help with that" ];
              candidate_of [ inline_part "QkxVRQ==" ] ] |}.

Definition response_no_candidates : GenAI.GenerateContentResponse :=
  {| GenAI.candidates := Some [] |}.

Definition response_text_only : GenAI.GenerateContentResponse :=
  {| GenAI.candidates := Some [ candidate_of [ text_part "No image today" ] ] |}.

(** A remote endpoint that answers every request with the same outcome. *)
Definition always (outcome : Settled GenAI.GenerateContentResponse)
  : GenAI.GenerateContentParameters -> Settled GenAI.GenerateContentResponse :=
  fun _ => outcome.

Definition png_file : File := {| name := "landscape.png"; type := "image/png" |}.

(** Some candidate of the response has a content part with inline data. *)
Definition some_candidate_has_inline_image (response : GenAI.GenerateContentResponse)
  : Prop :=
  exists candidates candidate part blob,
    GenAI.candidates response = Some candidates /\
    In candidate candidates /\
    In part (GenAI.parts (GenAI.content candidate)) /\
    GenAI.inlineData part = Some blob.

(** [t] occurs in [s]. *)
Definition contains (t s : string) : Prop :=
  exists before after, s = (before ++ t ++ after)%string.



(** [c] occurs in [s]. *)
Fixpoint has_char (c : ascii) (s : string) : bool :=
  match s with
  | EmptyString => false
  | String a s' => Ascii.eqb a c || has_char c s'
  end.

(** No line terminator occurs in [s]. *)
Fixpoint single_line (s : string) : bool :=
  match s with
  | EmptyString => true
  | String a s' => negb (Js.is_line_terminator a) && single_line s'
  end.

(** A transport failure that carries no message. *)
Definition remote_fails_silently
  : GenAI.GenerateContentParameters -> Settled GenAI.GenerateContentResponse :=
  always (inl {| message := None |}).

(** A session that shows an earlier result. *)
Definition state_with_result : AppState :=
  {| sourceImage :=
       Some {| file := png_file; previewUrl := "data:image/png;base64,UkVE";
               base64 := Some "UkVE"; mimeType := "image/png" |};
     generatedImage := Some "data:image/png;base64,QkxVRQ==";
     prompt := "";
     processing := {| isLoading := false; error := None; progress := "" |} |}.

(** The clicks of the failing session: upload, generate, and, while the
    first request is with the network, "Change Image", a second upload and
    generate again. *)
Definition change_image_while_loading : list Event :=
  [ Upload png_file "data:image/png;base64,UkVE";
    ClickGenerate;
    TimerElapsed 0;
    ClickChangeImage;
    Upload png_file "data:image/png;base64,R1JFRU4=";
    ClickGenerate;
    TimerElapsed 1 ].

(* ================================================================== *)
(** * App.tsx: [handleDownload] *)
(* ================================================================== *)

(** A DOM element, as far as [handleDownload] uses one: its identity and
    the two attributes the handler sets. *)
Record Element : Type :=
  { element_id : nat; href : string; download : string }.

(** The document: the children of [document.body] in order, the number of
    elements created so far (the identity of the next one), and the links
    that were clicked, that is, the downloads started. *)
Record Document : Type :=
  { body : list Element; created : nat; clicked : list Element }.

(** [document.body.appendChild(node)]. *)
Definition appendChild (node : Element) (d : Document) : Document :=
  {| body := body d ++ [node]; created := created d; clicked := clicked d |}.

(** [document.body.removeChild(node)]: the child that is [node] goes. *)
Definition removeChild (node : Element) (d : Document) : Document :=
  {| body := filter (fun e => negb (Nat.eqb (element_id e) (element_id node))) (body d);
     created := created d; clicked := clicked d |}.

(** [node.click()]. *)
Definition click (node : Element) (d : Document) : Document :=
  {| body := body d; created := created d; clicked := clicked d ++ [node] |}.

(** A number (an integer) interpolated in a template literal. *)
Definition template_number (n : Z) : string := NilEmpty.string_of_int (Z.to_int n).

(** [handleDownload], with [now] the value of [Date.now()].  The handler
    creates the link ([document.createElement('a')], a new element of the
    document), sets its two attributes, appends it to the body, clicks it
    and removes it again. *)
Definition handleDownload (now : Z) (s : AppState) (d : Document) : Document :=
  match generatedImage s with
  | Some (String c url) =>
      let link :=
        {| element_id := created d;
           href := String c url;
           download := ("ratioflip-" ++ template_number now ++ ".png")%string |} in
      let d := {| body := body d; created := S (created d); clicked := clicked d |} in
      let d := appendChild link d in
      let d := click link d in
      removeChild link d
  | Some EmptyString => d
  | None => d
  end.

(** Every child of the body was created by the document. *)
Definition well_formed_document (d : Document) : Prop :=
  Forall (fun e => element_id e < created d) (body d).

Definition empty_document : Document := {| body := []; created := 0; clicked := [] |}.

(* ================================================================== *)
(** * components/Uploader.tsx *)
(* ================================================================== *)

(** The [useState] cell of [Uploader]. *)
Record UploaderState : Type := { isDragging : bool }.

(** What the page shows of the uploader's work: the alerts raised, the
    files handed to a [FileReader], and how often the file dialog of the
    hidden input was opened. *)
Record Page : Type :=
  { alerts : list string; reading : list File; dialogs : nat }.

Definition alert (msg : string) (p : Page) : Page :=
  {| alerts := alerts p ++ [msg]; reading := reading p; dialogs := dialogs p |}.

(** [new FileReader()] and [reader.readAsDataURL(file)]. *)
Definition readAsDataURL (f : File) (p : Page) : Page :=
  {| alerts := alerts p; reading := reading p ++ [f]; dialogs := dialogs p |}.

(** [fileInputRef.current?.click()]. *)
Definition open_file_dialog (p : Page) : Page :=
  {| alerts := alerts p; reading := reading p; dialogs := S (dialogs p) |}.

Definition processFile (f : File) (p : Page) : Page :=
  if negb (String.prefix "image/" (type f))
  then alert "Please upload an image file." p
  else readAsDataURL f p.

(** [files && files[0]]: the first file of a file list that is there. *)
Definition first_file (files : option (list File)) : option File :=
  match files with
  | Some fs => Js.index fs 0
  | None => None
  end.

Section Uploader.

(** The [disabled] prop; when it is omitted it is [undefined], which the
    component treats as [false] everywhere. *)
Variable disabled : bool.

Definition handleFileChange (files : option (list File))
    (u : UploaderState) (p : Page) : UploaderState * Page :=
  match first_file files with
  | Some f => (u, processFile f p)
  | None => (u, p)
  end.

Definition handleDragOver (u : UploaderState) (p : Page) : UploaderState * Page :=
  if negb disabled then ({| isDragging := true |}, p) else (u, p).

Definition handleDragLeave (u : UploaderState) (p : Page) : UploaderState * Page :=
  ({| isDragging := false |}, p).

Definition handleDrop (files : option (list File))
    (u : UploaderState) (p : Page) : UploaderState * Page :=
  let u := {| isDragging := false |} in
  if disabled then (u, p)
  else match first_file files with
       | Some f => (u, processFile f p)
       | None => (u, p)
       end.

(** [onClick={() => !disabled && fileInputRef.current?.click()}]. *)
Definition handleClick (u : UploaderState) (p : Page) : UploaderState * Page :=
  if negb disabled then (u, open_file_dialog p) else (u, p).

End Uploader.

(** What the user can do to the uploader. *)
Inductive UploaderEvent : Type :=
| Click
| Change (files : option (list File))
| DragOver
| DragLeave
| Drop (files : option (list File)).

(** One event on an uploader rendered with the given [disabled] prop.  The
    hidden input carries [disabled={disabled}], so it reports no change
    while it is disabled. *)
Definition uploader_step (disabled : bool) (e : UploaderEvent)
    (up : UploaderState * Page) : UploaderState * Page :=
  let (u, p) := up in
  match e with
  | Click => handleClick disabled u p
  | Change files => if disabled then (u, p) else handleFileChange files u p
  | DragOver => handleDragOver disabled u p
  | DragLeave => handleDragLeave u p
  | Drop files => handleDrop disabled files u p
  end.




Definition pdf_file : File := {| name := "notes.pdf"; type := "application/pdf" |}.

(* ================================================================== *)
(** * Further predicates and inputs of the statements *)
(* ================================================================== *)

(** The clicks that can start a run of [handleGenerate]. *)
Definition is_generate_click (e : Event) : bool :=
  match e with
  | ClickGenerate => true
  | ClickRegenerate => true
  | _ => false
  end.

Definition generate_clicks (es : list Event) : nat :=
  length (filter is_generate_click es).

(** The runs that wait for their timer. *)
Fixpoint delaying (l : list Run) : nat :=
  match l with
  | [] => 0
  | run :: rest =>
      match run_phase run with
      | Delaying => S (delaying rest)
      | InFlight _ => delaying rest
      end
  end.


(** An inline part that carries a JPEG. *)
Definition jpeg_part (payload : string) : GenAI.Part :=
  {| GenAI.inlineData :=
       Some {| GenAI.data := Some payload; GenAI.mimeType := Some "image/jpeg" |};
     GenAI.text := None |}.

(** An inline part whose payload is missing. *)
Definition hollow_part : GenAI.Part :=
  {| GenAI.inlineData :=
       Some {| GenAI.data := None; GenAI.mimeType := Some "image/png" |};
     GenAI.text := None |}.

Definition response_jpeg : GenAI.GenerateContentResponse :=
  {| GenAI.candidates := Some [ candidate_of [ jpeg_part "SlBFRw==" ] ] |}.

Definition response_hollow : GenAI.GenerateContentResponse :=
  {| GenAI.candidates := Some [ candidate_of [ hollow_part; inline_part "QkxVRQ==" ] ] |}.

(** A session with an earlier error and no result. *)
Definition state_with_error : AppState :=
  {| sourceImage :=
       Some {| file := png_file; previewUrl := "data:image/png;base64,UkVE";
               base64 := Some "UkVE"; mimeType := "image/png" |};
     generatedImage := None;
     prompt := "make it night";
     processing := {| isLoading := false; error := Some "Failed to generate image.";
                      progress := "" |} |}.

(* ================================================================== *)
(** * The generation client *)
(* ================================================================== *)

Lemma scan_parts_first_inline :
  forall before part after blob acc,
    Forall (fun q => GenAI.inlineData q = None) before ->
    GenAI.inlineData part = Some blob ->
    scan_parts (before ++ part :: after) acc
    = Some ("data:image/png;base64," ++ Js.template (GenAI.data blob))%string.
Proof.
  induction before as [| q before IH]; intros part after blob acc Hnone Hpart.
  - simpl. rewrite Hpart. reflexivity.
  - inversion Hnone as [| ? ? Hq Hrest]; subst.
    simpl. rewrite Hq. apply IH; assumption.
Qed.

Lemma scan_parts_no_inline :
  forall ps acc,
    Forall (fun q => GenAI.inlineData q = None) ps ->
    scan_parts ps acc = acc.
Proof.
  induction ps as [| q ps IH]; intros acc Hnone.
  - reflexivity.
  - inversion Hnone as [| ? ? Hq Hrest]; subst.
    simpl. rewrite Hq. apply IH; assumption.
Qed.

(** With a credential, a call is: construct the client, then run the [try]
    block under its [catch]. *)
Lemma generateVerticalImage_configured :
  forall env remote imageBase64 mimeType prompt w,
    Js.truthy (API_KEY env) = true ->
    generateVerticalImage env remote imageBase64 mimeType prompt w
    = try_catch (try_body remote imageBase64 mimeType prompt) catch_block
        (World_add_client (API_KEY env) w).
Proof.
  intros env remote imageBase64 mimeType prompt w Hkey.
  unfold generateVerticalImage. rewrite Hkey. reflexivity.
Qed.

(** The [try] block hands exactly one request to the network. *)
Lemma try_body_network :
  forall remote imageBase64 mimeType prompt w,
    network (fst (try_body remote imageBase64 mimeType prompt w))
    = network w ++ [request_of imageBase64 mimeType prompt].
Proof.
  intros remote imageBase64 mimeType prompt w.
  unfold try_body, bind, generateContent.
  destruct (remote (request_of imageBase64 mimeType prompt)) as [e | response]; simpl.
  - reflexivity.
  - unfold read_response.
    destruct (GenAI.candidates response) as [[| c cs] |]; try reflexivity.
    destruct (scan_parts _ _) as [[| ch uri] |]; reflexivity.
Qed.

(** C1 (as amended): with a credential, when the first candidate of the
    response has a content part with inline data, the call resolves with
    [data:image/png;base64,] followed by the payload of the first such part
    in part order; the parts after it play no role. *)
Theorem generateVerticalImage_first_inline_image :
  forall env remote imageBase64 mimeType prompt w
         response candidate0 others before part after blob payload,
    Js.truthy (API_KEY env) = true ->
    remote (request_of imageBase64 mimeType prompt) = inr response ->
    GenAI.candidates response = Some (candidate0 :: others) ->
    GenAI.parts (GenAI.content candidate0) = before ++ part :: after ->
    Forall (fun q => GenAI.inlineData q = None) before ->
    GenAI.inlineData part = Some blob ->
    GenAI.data blob = Some payload ->
    snd (generateVerticalImage env remote imageBase64 mimeType prompt w)
    = inr ("data:image/png;base64," ++ payload)%string.
Proof.
  intros env remote imageBase64 mimeType prompt w response candidate0 others
         before part after blob payload Hkey Hremote Hcands Hparts Hbefore Hpart Hdata.
  rewrite generateVerticalImage_configured by assumption.
  unfold try_catch, try_body, bind, generateContent.
  rewrite Hremote. unfold read_response. rewrite Hcands, Hparts.
  rewrite (scan_parts_first_inline before part after blob None Hbefore Hpart).
  rewrite Hdata. reflexivity.
Qed.

Lemma generateVerticalImage_first_inline_image_witness :
  snd (generateVerticalImage env_configured (always (inr response_two_images))
         (Some "UkVE") "image/png" "" empty_world)
  = inr "data:image/png;base64,QkxVRQ==".
Proof.
  apply (generateVerticalImage_first_inline_image
           env_configured (always (inr response_two_images))
           (Some "UkVE") "image/png" "" empty_world
           response_two_images
           (candidate_of [ text_part "Here you go"; inline_part "QkxVRQ==";
                           inline_part "R1JFRU4=" ])
           [] [ text_part "Here you go" ] (inline_part "QkxVRQ==")
           [ inline_part "R1JFRU4=" ]
           {| GenAI.data := Some "QkxVRQ=="; GenAI.mimeType := Some "image/png" |}
           "QkxVRQ==").
  - reflexivity.
  - reflexivity.
  - reflexivity.
  - reflexivity.
  - repeat constructor.
  - reflexivity.
  - reflexivity.
Defined.

(** C1 (as stated) fails: a response whose second candidate holds the only
    inline image is rejected, because the client reads the first candidate
    only. *)
Lemma generateVerticalImage_any_candidate_counterexample :
  ~ (forall env remote imageBase64 mimeType prompt w response,
        Js.truthy (API_KEY env) = true ->
        remote (request_of imageBase64 mimeType prompt) = inr response ->
        some_candidate_has_inline_image response ->
        exists payload,
          snd (generateVerticalImage env remote imageBase64 mimeType prompt w)
          = inr ("data:image/png;base64," ++ payload)%string).
Proof.
  intros Hclaim.
  destruct (Hclaim env_configured (always (inr response_image_in_second_candidate))
                   (Some "UkVE") "image/png" "" empty_world
                   response_image_in_second_candidate)
    as [payload Hpayload].
  - reflexivity.
  - reflexivity.
  - exists [ candidate_of [ text_part "I cannot help with that" ];
             candidate_of [ inline_part "QkxVRQ==" ] ],
           (candidate_of [ inline_part "QkxVRQ==" ]),
           (inline_part "QkxVRQ=="),
           {| GenAI.data := Some "QkxVRQ=="; GenAI.mimeType := Some "image/png" |}.
    repeat split.
    + right. left. reflexivity.
    + left. reflexivity.
  - vm_compute in Hpayload. discriminate Hpayload.
Qed.

(** What the call does on that response. *)
Lemma generateVerticalImage_second_candidate_rejected :
  snd (generateVerticalImage env_configured
         (always (inr response_image_in_second_candidate))
         (Some "UkVE") "image/png" "" empty_world)
  = inl (new_Error "No image generated in the response.").
Proof. reflexivity. Qed.

(** C2: every request a call sends to the remote API has exactly two content
    parts, an inline-data part with the given payload and MIME type and a
    text part that is the given prompt when it is non-empty and the default
    instruction otherwise; a call with a credential sends one request, a call
    without one sends none. *)
Theorem generateVerticalImage_request_parts :
  forall env remote imageBase64 mimeType prompt w,
    exists sent,
      network (fst (generateVerticalImage env remote imageBase64 mimeType prompt w))
      = network w ++ sent /\
      length sent = (if Js.truthy (API_KEY env) then 1 else 0) /\
      forall request, In request sent ->
        GenAI.parts (GenAI.contents request)
        = [ {| GenAI.inlineData :=
                 Some {| GenAI.data := imageBase64; GenAI.mimeType := Some mimeType |};
               GenAI.text := None |};
            {| GenAI.inlineData := None;
               GenAI.text :=
                 Some (if String.eqb prompt ""
                       then "Transform this image to 9:16 portrait aspect ratio, maintaining the subject and style."
                       else prompt) |} ].
Proof.
  intros env remote imageBase64 mimeType prompt w.
  destruct (Js.truthy (API_KEY env)) eqn:Hkey.
  - exists [request_of imageBase64 mimeType prompt]. split; [| split].
    + rewrite generateVerticalImage_configured by assumption.
      unfold try_catch.
      pose proof (try_body_network remote imageBase64 mimeType prompt
                    (World_add_client (API_KEY env) w)) as Hnet.
      destruct (try_body remote imageBase64 mimeType prompt
                  (World_add_client (API_KEY env) w)) as [w1 [e | uri]];
        simpl in Hnet |- *; exact Hnet.
    + reflexivity.
    + intros request [<- | []].
      unfold request_of; simpl. destruct prompt; reflexivity.
  - exists []. split; [| split].
    + unfold generateVerticalImage. rewrite Hkey. simpl. now rewrite app_nil_r.
    + reflexivity.
    + intros request [].
Qed.

(** C3: with a credential, a response whose candidate list is absent or
    empty is rejected with a message that contains [No candidates], and a
    response whose first candidate has no content part with inline data is
    rejected with the message [No image generated in the response.] *)
Theorem generateVerticalImage_invalid_response :
  forall env remote imageBase64 mimeType prompt w response,
    Js.truthy (API_KEY env) = true ->
    remote (request_of imageBase64 mimeType prompt) = inr response ->
    (GenAI.candidates response = None \/ GenAI.candidates response = Some [] ->
     exists msg,
       snd (generateVerticalImage env remote imageBase64 mimeType prompt w)
       = inl {| message := Some msg |} /\
       contains "No candidates" msg) /\
    (forall candidate0 others,
       GenAI.candidates response = Some (candidate0 :: others) ->
       Forall (fun q => GenAI.inlineData q = None)
              (GenAI.parts (GenAI.content candidate0)) ->
       snd (generateVerticalImage env remote imageBase64 mimeType prompt w)
       = inl {| message := Some "No image generated in the response." |}).
Proof.
  intros env remote imageBase64 mimeType prompt w response Hkey Hremote.
  rewrite generateVerticalImage_configured by assumption.
  unfold try_catch, try_body, bind, generateContent.
  rewrite Hremote. unfold read_response. split.
  - intros Hcands. exists "No candidates returned from Gemini.". split.
    + destruct Hcands as [-> | ->]; reflexivity.
    + exists "", " returned from Gemini.". reflexivity.
  - intros candidate0 others Hcands Hnone. rewrite Hcands.
    rewrite (scan_parts_no_inline _ None Hnone). reflexivity.
Qed.

Lemma generateVerticalImage_invalid_response_witness :
  (exists msg,
     snd (generateVerticalImage env_configured (always (inr response_no_candidates))
            (Some "UkVE") "image/png" "" empty_world)
     = inl {| message := Some msg |} /\
     contains "No candidates" msg) /\
  snd (generateVerticalImage env_configured (always (inr response_text_only))
         (Some "UkVE") "image/png" "" empty_world)
  = inl {| message := Some "No image generated in the response." |}.
Proof.
  split.
  - apply (generateVerticalImage_invalid_response
             env_configured (always (inr response_no_candidates))
             (Some "UkVE") "image/png" "" empty_world response_no_candidates);
      [reflexivity | reflexivity | right; reflexivity].
  - apply (generateVerticalImage_invalid_response
             env_configured (always (inr response_text_only))
             (Some "UkVE") "image/png" "" empty_world response_text_only
             eq_refl eq_refl)
      with (candidate0 := candidate_of [ text_part "No image today" ]) (others := []).
    + reflexivity.
    + repeat constructor.
Defined.

(** C4: when no credential is configured (the variable is unset or empty),
    the call rejects with the configuration error, and neither a client is
    constructed nor a request handed to the network. *)
Theorem generateVerticalImage_missing_credential :
  forall env remote imageBase64 mimeType prompt w,
    Js.truthy (API_KEY env) = false ->
    snd (generateVerticalImage env remote imageBase64 mimeType prompt w)
    = inl {| message :=
               Some "API Key is missing. Please check your environment configuration." |} /\
    clients (fst (generateVerticalImage env remote imageBase64 mimeType prompt w))
    = clients w /\
    network (fst (generateVerticalImage env remote imageBase64 mimeType prompt w))
    = network w.
Proof.
  intros env remote imageBase64 mimeType prompt w Hkey.
  unfold generateVerticalImage. rewrite Hkey. simpl. repeat split.
Qed.

Lemma generateVerticalImage_missing_credential_witness :
  snd (generateVerticalImage env_unset (always (inr response_two_images))
         (Some "UkVE") "image/png" "" empty_world)
  = inl {| message :=
             Some "API Key is missing. Please check your environment configuration." |} /\
  clients (fst (generateVerticalImage env_unset (always (inr response_two_images))
                  (Some "UkVE") "image/png" "" empty_world))
  = [] /\
  network (fst (generateVerticalImage env_unset (always (inr response_two_images))
                  (Some "UkVE") "image/png" "" empty_world))
  = [].
Proof.
  apply (generateVerticalImage_missing_credential
           env_unset (always (inr response_two_images))
           (Some "UkVE") "image/png" "" empty_world).
  reflexivity.
Defined.

(** C5: with a credential, whenever the [try] block (the request, the
    validation of the response, the extraction of the payload) raises an
    error, the call rejects with one error whose message is the raised
    error's message when that is present and non-empty and
    [Failed to generate image.] otherwise; the network has seen exactly one
    request (no retry), and nothing is returned. *)
Theorem generateVerticalImage_rethrows :
  forall env remote imageBase64 mimeType prompt w w1 raised,
    Js.truthy (API_KEY env) = true ->
    try_body remote imageBase64 mimeType prompt (World_add_client (API_KEY env) w)
    = (w1, inl raised) ->
    snd (generateVerticalImage env remote imageBase64 mimeType prompt w)
    = inl {| message :=
               Some (match message raised with
                     | Some (String c m) => String c m
                     | Some EmptyString => "Failed to generate image."
                     | None => "Failed to generate image."
                     end) |} /\
    network (fst (generateVerticalImage env remote imageBase64 mimeType prompt w))
    = network w ++ [request_of imageBase64 mimeType prompt].
Proof.
  intros env remote imageBase64 mimeType prompt w w1 raised Hkey Hbody.
  rewrite generateVerticalImage_configured by assumption.
  pose proof (try_body_network remote imageBase64 mimeType prompt
                (World_add_client (API_KEY env) w)) as Hnet.
  unfold try_catch. rewrite Hbody in *. simpl in Hnet.
  unfold catch_block, bind, console_error, throw; simpl. split.
  - destruct (message raised) as [[| c m] |]; reflexivity.
  - exact Hnet.
Qed.

Lemma generateVerticalImage_rethrows_witness :
  snd (generateVerticalImage env_configured remote_fails_silently
         (Some "UkVE") "image/png" "" empty_world)
  = inl {| message := Some "Failed to generate image." |} /\
  network (fst (generateVerticalImage env_configured remote_fails_silently
                  (Some "UkVE") "image/png" "" empty_world))
  = [request_of (Some "UkVE") "image/png" ""].
Proof.
  apply (generateVerticalImage_rethrows
           env_configured remote_fails_silently (Some "UkVE") "image/png" "" empty_world
           (World_add_request (request_of (Some "UkVE") "image/png" "")
              (World_add_client (Some "test-key") empty_world))
           {| message := None |}).
  - reflexivity.
  - reflexivity.
Defined.

(* ================================================================== *)
(** * Strings: [split] and the data-URI pattern *)
(* ================================================================== *)

Lemma has_char_app :
  forall c s t, has_char c (s ++ t)%string = has_char c s || has_char c t.
Proof.
  induction s as [| a s IH]; intros t; simpl.
  - reflexivity.
  - rewrite IH. now rewrite orb_assoc.
Qed.

Lemma split_not_nil : forall sep s, Js.split sep s <> [].
Proof.
  intros sep [| c s]; simpl.
  - discriminate.
  - destruct (Ascii.eqb c sep); [discriminate |].
    destruct (Js.split sep s); discriminate.
Qed.

(** No segment of a split holds the separator. *)
Lemma split_segments_no_sep :
  forall sep s, Forall (fun seg => has_char sep seg = false) (Js.split sep s).
Proof.
  induction s as [| c s IH]; simpl.
  - repeat constructor.
  - destruct (Ascii.eqb c sep) eqn:Hc.
    + constructor; [reflexivity | exact IH].
    + destruct (Js.split sep s) as [| seg rest].
      * constructor; [simpl; now rewrite Hc | constructor].
      * inversion IH as [| ? ? Hseg Hrest]; subst.
        constructor; [simpl; now rewrite Hc, Hseg | exact Hrest].
Qed.

(** A string that holds the separator splits into at least two segments. *)
Lemma split_second_segment :
  forall sep s,
    has_char sep s = true ->
    exists seg, Js.index (Js.split sep s) 1 = Some seg /\ has_char sep seg = false.
Proof.
  intros sep s Hs.
  assert (Hlen : exists a b rest, Js.split sep s = a :: b :: rest).
  { induction s as [| c s IH]; simpl in *; [discriminate |].
    destruct (Ascii.eqb c sep) eqn:Hc.
    - destruct (Js.split sep s) as [| b rest] eqn:Hsplit.
      + now apply split_not_nil in Hsplit.
      + now exists EmptyString, b, rest.
    - simpl in Hs. destruct (IH Hs) as (a & b & rest & ->).
      now exists (String c a), b, rest. }
  destruct Hlen as (a & b & rest & Hsplit).
  exists b. split.
  - unfold Js.index. now rewrite Hsplit.
  - pose proof (split_segments_no_sep sep s) as Hall. rewrite Hsplit in Hall.
    inversion Hall as [| ? ? _ Hall']; subst.
    now inversion Hall'.
Qed.

Lemma prefix_app : forall p rest, String.prefix p (p ++ rest)%string = true.
Proof.
  induction p as [| a p IH]; intros rest; simpl.
  - now destruct rest.
  - destruct (ascii_dec a a) as [_ | Hneq]; [apply IH | now elim Hneq].
Qed.

Lemma prefix_inv :
  forall p s, String.prefix p s = true -> exists rest, s = (p ++ rest)%string.
Proof.
  induction p as [| a p IH]; intros s Hp.
  - now exists s.
  - destruct s as [| b s]; simpl in Hp; [discriminate |].
    destruct (ascii_dec a b) as [-> | _]; [| discriminate].
    destruct (IH s Hp) as [rest ->]. now exists rest.
Qed.

Lemma strip_prefix_app :
  forall p rest, Js.strip_prefix p (p ++ rest)%string = Some rest.
Proof.
  induction p as [| a p IH]; intros rest; simpl.
  - reflexivity.
  - rewrite Ascii.eqb_refl. apply IH.
Qed.

Lemma strip_prefix_inv :
  forall p s r, Js.strip_prefix p s = Some r -> s = (p ++ r)%string.
Proof.
  induction p as [| a p IH]; intros s r Hs; simpl in Hs.
  - now inversion Hs.
  - destruct s as [| b s]; [discriminate |].
    destruct (Ascii.eqb a b) eqn:Hab; [| discriminate].
    apply Ascii.eqb_eq in Hab; subst b.
    simpl. f_equal. now apply IH.
Qed.

Lemma dot_star_then_at_literal :
  forall lit s, String.prefix lit s = true -> Js.dot_star_then lit s <> None.
Proof.
  intros lit [| c s] Hp.
  - cbn [Js.dot_star_then]. rewrite Hp. discriminate.
  - cbn [Js.dot_star_then].
    destruct (if Js.is_line_terminator c then None else Js.dot_star_then lit s);
      [discriminate |].
    rewrite Hp. discriminate.
Qed.

(** The matcher finds a match whenever one exists... *)
Lemma dot_star_then_complete :
  forall lit m rest,
    single_line m = true ->
    Js.dot_star_then lit (m ++ lit ++ rest)%string <> None.
Proof.
  intros lit m rest. induction m as [| c m IH]; intros Hm.
  - apply dot_star_then_at_literal. exact (prefix_app lit rest).
  - simpl in Hm. apply andb_true_iff in Hm as [Hc Hm].
    apply negb_true_iff in Hc. simpl. rewrite Hc.
    destruct (Js.dot_star_then lit (m ++ lit ++ rest)) eqn:Hrec.
    + discriminate.
    + now elim (IH Hm).
Qed.

(** ... and what it captures is a run of non-terminators followed by the
    literal. *)
Lemma dot_star_then_sound :
  forall lit s m,
    Js.dot_star_then lit s = Some m ->
    single_line m = true /\ exists rest, s = (m ++ lit ++ rest)%string.
Proof.
  intros lit. induction s as [| c s IH]; intros m Hm.
  - cbn [Js.dot_star_then] in Hm. destruct (String.prefix lit "") eqn:Hp; [| discriminate].
    inversion Hm; subst. split; [reflexivity | exact (prefix_inv _ _ Hp)].
  - cbn [Js.dot_star_then] in Hm.
    destruct (Js.is_line_terminator c) eqn:Hc.
    + destruct (String.prefix lit (String c s)) eqn:Hp; [| discriminate].
      inversion Hm; subst. split; [reflexivity | exact (prefix_inv _ _ Hp)].
    + destruct (Js.dot_star_then lit s) as [m' |] eqn:Hrec.
      * inversion Hm; subst. destruct (IH m' eq_refl) as [Hm' [rest ->]].
        split; [simpl; now rewrite Hc | now exists rest].
      * destruct (String.prefix lit (String c s)) eqn:Hp; [| discriminate].
        inversion Hm; subst. split; [reflexivity | exact (prefix_inv _ _ Hp)].
Qed.

(** The pattern of [handleImageSelected] fails exactly on the strings that
    do not begin with [data:], a run of non-terminators and [;base64,]. *)
Lemma match_data_uri_none :
  forall s,
    Js.match_data_uri s = None <->
    (forall m rest, single_line m = true -> s <> ("data:" ++ m ++ ";base64," ++ rest)%string).
Proof.
  intros s. unfold Js.match_data_uri. split.
  - intros Hnone m rest Hm ->.
    rewrite (strip_prefix_app "data:") in Hnone.
    now apply (dot_star_then_complete ";base64," m rest Hm).
  - intros Hno. destruct (Js.strip_prefix "data:" s) as [r |] eqn:Hstrip; [| reflexivity].
    destruct (Js.dot_star_then ";base64," r) as [m |] eqn:Hdot; [| reflexivity].
    apply strip_prefix_inv in Hstrip.
    destruct (dot_star_then_sound _ _ _ Hdot) as [Hm [rest ->]].
    now elim (Hno m rest Hm).
Qed.

Lemma string_app_assoc :
  forall a b c : string, ((a ++ b) ++ c = a ++ b ++ c)%string.
Proof.
  induction a as [| x a IH]; intros b c; simpl; [reflexivity | now rewrite IH].
Qed.

Lemma split_no_sep : forall sep s, has_char sep s = false -> Js.split sep s = [s].
Proof.
  induction s as [| c s IH]; simpl; intros Hs; [reflexivity |].
  apply orb_false_iff in Hs as [Hc Hs]. rewrite Hc, (IH Hs). reflexivity.
Qed.

Lemma split_at_first_sep :
  forall sep a b,
    has_char sep a = false ->
    Js.split sep (a ++ String sep b)%string = a :: Js.split sep b.
Proof.
  induction a as [| c a IH]; simpl; intros b Ha.
  - now rewrite Ascii.eqb_refl.
  - apply orb_false_iff in Ha as [Hc Ha]. rewrite Hc, (IH b Ha). reflexivity.
Qed.

(** On a data URI whose MIME type and payload hold no comma, the second
    segment of the split is the payload. *)
Lemma split_data_uri :
  forall mime payload,
    has_char "," mime = false ->
    has_char "," payload = false ->
    Js.index (Js.split "," ("data:" ++ mime ++ ";base64," ++ payload)%string) 1
    = Some payload.
Proof.
  intros mime payload Hmime Hpayload.
  replace ("data:" ++ mime ++ ";base64," ++ payload)%string
    with (("data:" ++ mime ++ ";base64") ++ String "," payload)%string.
  - rewrite split_at_first_sep.
    + rewrite (split_no_sep _ _ Hpayload). reflexivity.
    + rewrite !has_char_app, Hmime. reflexivity.
  - simpl. do 5 f_equal. apply string_app_assoc.
Qed.

(* ================================================================== *)
(** * The handlers of [App] *)
(* ================================================================== *)

(** C6: in a run of [handleGenerate] in which the client rejects, the final
    state holds the client's message (or [Something went wrong] when it has
    none) in [processing.error], has [processing.isLoading] false, and holds
    the generated result it held before the run. *)
Theorem handleGenerate_rejected :
  forall client s w image w' err,
    sourceImage s = Some image ->
    client (base64 image) (mimeType image) (prompt s) w = (w', inl err) ->
    error (processing (fst (handleGenerate client s w)))
    = Some (match message err with
            | Some (String c m) => String c m
            | Some EmptyString => "Something went wrong"
            | None => "Something went wrong"
            end) /\
    isLoading (processing (fst (handleGenerate client s w))) = false /\
    generatedImage (fst (handleGenerate client s w)) = generatedImage s.
Proof.
  intros client s w image w' err Himage Hclient.
  unfold handleGenerate. rewrite Himage, Hclient. simpl.
  split; [| split]; reflexivity.
Qed.

Lemma handleGenerate_rejected_witness :
  error (processing (fst (handleGenerate
                            (generateVerticalImage env_configured
                               (always (inr response_text_only)))
                            state_with_result empty_world)))
  = Some "No image generated in the response." /\
  isLoading (processing (fst (handleGenerate
                                (generateVerticalImage env_configured
                                   (always (inr response_text_only)))
                                state_with_result empty_world)))
  = false /\
  generatedImage (fst (handleGenerate
                         (generateVerticalImage env_configured
                            (always (inr response_text_only)))
                         state_with_result empty_world))
  = Some "data:image/png;base64,QkxVRQ==".
Proof.
  apply (handleGenerate_rejected
           (generateVerticalImage env_configured (always (inr response_text_only)))
           state_with_result empty_world
           {| file := png_file; previewUrl := "data:image/png;base64,UkVE";
              base64 := Some "UkVE"; mimeType := "image/png" |}
           (fst (generateVerticalImage env_configured
                   (always (inr response_text_only))
                   (Some "UkVE") "image/png" "" empty_world))
           (new_Error "No image generated in the response.")).
  - reflexivity.
  - reflexivity.
Defined.

(** C7: clearing the source image, from whatever state, leaves no source
    image, no generated result, and the initial processing state. *)
Theorem handleClear_resets :
  forall s,
    sourceImage (handleClear s) = None /\
    generatedImage (handleClear s) = None /\
    processing (handleClear s) = {| isLoading := false; error := None; progress := "" |}.
Proof.
  intros s. unfold handleClear. simpl. split; [| split]; reflexivity.
Qed.

(** Apart from the prompt text, which is kept, that is the state of the
    first render. *)
Lemma handleClear_initial :
  forall s, handleClear s = setPrompt (prompt s) initialState.
Proof. reflexivity. Qed.

(** Every handler leaves the stored upload as it is, drops it, or (on an
    upload) stores the record [handleImageSelected] builds. *)
Lemma step_sourceImage :
  forall env e x,
    sourceImage (app (step env e x)) = sourceImage (app x) \/
    sourceImage (app (step env e x)) = None \/
    exists file dataUrl,
      e = Upload file dataUrl /\
      sourceImage (app (step env e x))
      = sourceImage (handleImageSelected file dataUrl (app x)).
Proof.
  intros env e x. destruct e as [file dataUrl | | | | | value | i | i outcome]; simpl.
  - destruct (_ && _); [| now left]. right. right. now exists file, dataUrl.
  - destruct (_ && _); [right | ]; now left.
  - destruct (change_image_rendered _); [right |]; now left.
  - destruct (generate_disabled _); [now left |].
    unfold begin_generate. destruct (sourceImage (app x)) eqn:Hs; left; simpl; exact Hs.
  - destruct (_ && _); [| now left].
    unfold begin_generate. destruct (sourceImage (app x)) eqn:Hs; left; simpl; exact Hs.
  - destruct (prompt_disabled _); now left.
  - destruct (nth_error (runs x) i) as [run |]; [| now left].
    destruct (run_phase run); [| now left].
    unfold resume_after_timer.
    destruct (client_begin _ _ _ _ _) as [w [err | request]]; now left.
  - destruct (nth_error (runs x) i) as [run |]; [| now left].
    destruct (run_phase run); [now left |].
    unfold resume_after_client.
    destruct (after_await _ _) as [w [err | uri]]; now left.
Qed.

(** C9: for an upload whose preview string is a data URI, the stored record
    keeps the whole data URI as its preview, and its raw base64 field is a
    string in which no [data:...;base64,] prefix occurs; the stored record
    is a new one that owes nothing to the state before the upload, and no
    handler changes a stored record other than by replacing or dropping
    it. *)
Theorem handleImageSelected_upload_invariant :
  forall file mime payload s,
    exists upload raw,
      sourceImage (handleImageSelected file ("data:" ++ mime ++ ";base64," ++ payload) s)
      = Some upload /\
      previewUrl upload = ("data:" ++ mime ++ ";base64," ++ payload)%string /\
      base64 upload = Some raw /\
      (forall before mime' rest,
         raw <> (before ++ "data:" ++ mime' ++ ";base64," ++ rest)%string) /\
      (forall s',
         sourceImage
           (handleImageSelected file ("data:" ++ mime ++ ";base64," ++ payload) s')
         = Some upload) /\
      (forall env e x,
         sourceImage (app (step env e x)) = sourceImage (app x) \/
         sourceImage (app (step env e x)) = None \/
         exists file' dataUrl,
           e = Upload file' dataUrl /\
           sourceImage (app (step env e x))
           = sourceImage (handleImageSelected file' dataUrl (app x))).
Proof.
  intros file mime payload s.
  set (preview := ("data:" ++ mime ++ ";base64," ++ payload)%string).
  assert (Hcomma : has_char "," preview = true).
  { unfold preview. rewrite !has_char_app. simpl. now rewrite !orb_true_r. }
  destruct (split_second_segment "," preview Hcomma) as [raw [Hraw Hclean]].
  exists {| file := file; previewUrl := preview; base64 := Some raw;
            mimeType := match Js.match_data_uri preview with
                        | Some group1 => group1
                        | None => type file
                        end |}, raw.
  assert (Hstored : forall s0,
             sourceImage (handleImageSelected file preview s0)
             = Some {| file := file; previewUrl := preview; base64 := Some raw;
                       mimeType := match Js.match_data_uri preview with
                                   | Some group1 => group1
                                   | None => type file
                                   end |}).
  { intros s0. unfold handleImageSelected.
    cbn [sourceImage setProcessing setGeneratedImage setSourceImage].
    now rewrite Hraw. }
  split; [apply Hstored |].
  split; [reflexivity |].
  split; [reflexivity |].
  split; [| split; [apply Hstored | apply step_sourceImage]].
  intros before mime' rest Heq. rewrite Heq in Hclean.
  rewrite !has_char_app in Hclean. simpl in Hclean.
  rewrite !orb_true_r in Hclean. discriminate.
Qed.

(** C10: accepting a new source image resets the generated result to null
    and the processing state to its initial value, and when the preview
    string does not begin with [data:], a run of non-terminators and
    [;base64,], the stored MIME type is the file's own type. *)
Theorem handleImageSelected_resets :
  forall file base64 s,
    generatedImage (handleImageSelected file base64 s) = None /\
    processing (handleImageSelected file base64 s)
    = {| isLoading := false; error := None; progress := "" |} /\
    ((forall m rest,
        single_line m = true ->
        base64 <> ("data:" ++ m ++ ";base64," ++ rest)%string) ->
     exists upload,
       sourceImage (handleImageSelected file base64 s) = Some upload /\
       mimeType upload = type file).
Proof.
  intros file base64 s. split; [reflexivity | split; [reflexivity |]].
  intros Hno. apply match_data_uri_none in Hno.
  unfold handleImageSelected. rewrite Hno. simpl.
  eexists. split; reflexivity.
Qed.

(** A file whose reader produced no data URI. *)
Lemma handleImageSelected_resets_witness :
  exists upload,
    sourceImage (handleImageSelected png_file "not a data uri" state_with_result)
    = Some upload /\
    mimeType upload = "image/png".
Proof.
  apply (handleImageSelected_resets png_file "not a data uri" state_with_result).
  apply match_data_uri_none. reflexivity.
Defined.

(** On the data URI a file reader produces (no comma in the MIME type or in
    the payload) the raw base64 field is the payload itself. *)
Lemma handleImageSelected_raw_payload :
  forall file mime payload s,
    has_char "," mime = false ->
    has_char "," payload = false ->
    exists upload,
      sourceImage (handleImageSelected file ("data:" ++ mime ++ ";base64," ++ payload) s)
      = Some upload /\
      base64 upload = Some payload.
Proof.
  intros file mime payload s Hmime Hpayload.
  unfold handleImageSelected.
  cbn [sourceImage setProcessing setGeneratedImage setSourceImage].
  rewrite (split_data_uri mime payload Hmime Hpayload).
  eexists. split; reflexivity.
Qed.

Example handleImageSelected_png :
  sourceImage (handleImageSelected png_file "data:image/png;base64,UkVE" initialState)
  = Some {| file := png_file; previewUrl := "data:image/png;base64,UkVE";
            base64 := Some "UkVE"; mimeType := "image/png" |}.
Proof. reflexivity. Qed.

(** The group of the pattern is greedy: it runs to the last [;base64,] of
    the first line. *)
Example match_data_uri_greedy :
  Js.match_data_uri "data:a;base64,b;base64,c" = Some "a;base64,b".
Proof. reflexivity. Qed.

(* ================================================================== *)
(** * The generate guard and the requests in flight *)
(* ================================================================== *)

(** The generate button is disabled exactly when there is no source image
    or the loading flag is set. *)
Lemma generate_disabled_iff :
  forall s,
    generate_disabled s = true <->
    sourceImage s = None \/ isLoading (processing s) = true.
Proof.
  intros s. unfold generate_disabled.
  destruct (sourceImage s) as [image |]; destruct (isLoading (processing s)); simpl;
    split; intros H; try reflexivity; try discriminate; auto.
  destruct H; discriminate.
Qed.

(** While the loading flag is set, neither generate control does anything:
    no run starts and the network sees nothing. *)
Lemma click_generate_while_loading :
  forall env x,
    isLoading (processing (app x)) = true ->
    step env ClickGenerate x = x /\ step env ClickRegenerate x = x.
Proof.
  intros env x Hloading. simpl.
  unfold generate_disabled, regenerate_disabled. rewrite Hloading.
  rewrite orb_true_r, andb_false_r. split; reflexivity.
Qed.







(** C8 (the code at the failing input): after "Change Image" is clicked
    while a generation is loading and a new image is uploaded, the generate
    button is enabled although the first request is still with the network,
    and clicking it puts a second request in flight. *)
Theorem change_image_while_loading_two_requests :
  (let x := run_events env_configured (firstn 5 change_image_while_loading)
              initialSession in
   outstanding (runs x) = [request_of (Some "UkVE") "image/png" (prompt initialState)] /\
   generate_disabled (app x) = false) /\
  (let x := run_events env_configured change_image_while_loading initialSession in
   outstanding (runs x)
   = [request_of (Some "UkVE") "image/png" (prompt initialState);
      request_of (Some "R1JFRU4=") "image/png" (prompt initialState)] /\
   network (world x) = outstanding (runs x)).
Proof.
  split; split; reflexivity.
Qed.

(* ================================================================== *)
(** * The session model agrees with the handlers run in one piece *)
(* ================================================================== *)

(** The client is its part before the [await] followed by its part after. *)
Lemma generateVerticalImage_split :
  forall env remote imageBase64 mimeType prompt w,
    generateVerticalImage env remote imageBase64 mimeType prompt w
    = match client_begin env imageBase64 mimeType prompt w with
      | (w1, inl err) => (w1, inl err)
      | (w1, inr request) => after_await (remote request) w1
      end.
Proof.
  intros env remote imageBase64 mimeType prompt w.
  unfold generateVerticalImage, client_begin.
  destruct (Js.truthy (API_KEY env)); simpl; [| reflexivity].
  unfold bind, new_GoogleGenAI, try_catch, try_body, after_await, bind, generateContent,
    try_catch.
  destruct (remote (request_of imageBase64 mimeType prompt)); reflexivity.
Qed.

(** A click on the enabled generate button, the timer and the answer of the
    remote endpoint, with nothing in between, are one run of
    [handleGenerate]. *)
Lemma handleGenerate_as_events :
  forall env remote x image,
    runs x = [] ->
    sourceImage (app x) = Some image ->
    isLoading (processing (app x)) = false ->
    let request := request_of (base64 image) (mimeType image) (prompt (app x)) in
    let x' := run_events env
                [ClickGenerate; TimerElapsed 0; RemoteSettled 0 (remote request)] x in
    (app x', world x')
    = handleGenerate (generateVerticalImage env remote) (app x) (world x)
    /\ runs x' = [].
Proof.
  intros env remote x image Hruns Himage Hloading request x'.
  subst x' request. unfold run_events. cbn [fold_left].
  assert (Hclick : step env ClickGenerate x
                   = {| app := generate_started (app x);
                        runs := [ {| run_image := image; run_prompt := prompt (app x);
                                     run_phase := Delaying |} ];
                        world := world x |}).
  { unfold step; cbv beta iota zeta. unfold generate_disabled.
    rewrite Himage, Hloading. cbn [negb orb].
    unfold begin_generate. rewrite Himage, Hruns. reflexivity. }
  rewrite Hclick. clear Hclick.
  set (run0 := {| run_image := image; run_prompt := prompt (app x);
                  run_phase := Delaying |}).
  set (x1 := {| app := generate_started (app x); runs := [run0]; world := world x |}).
  change (step env (TimerElapsed 0) x1) with (resume_after_timer env 0 run0 x1).
  unfold handleGenerate. rewrite Himage, generateVerticalImage_split.
  unfold resume_after_timer. cbn [run_image run_prompt run0 x1 world app runs].
  destruct (client_begin env (base64 image) (mimeType image) (prompt (app x)) (world x))
    as [w1 [err | request]] eqn:Hbegin.
  - split; reflexivity.
  - assert (Hreq : request = request_of (base64 image) (mimeType image) (prompt (app x))).
    { unfold client_begin in Hbegin.
      destruct (Js.truthy (API_KEY env)); simpl in Hbegin; [| discriminate].
      unfold bind, new_GoogleGenAI in Hbegin. now inversion Hbegin. }
    rewrite <- Hreq.
    match goal with
    | |- context [step env (RemoteSettled 0 ?o) ?x2] =>
        change (step env (RemoteSettled 0 o) x2) with (resume_after_client 0 o x2)
    end.
    unfold resume_after_client. cbn [world app runs].
    destruct (after_await (remote request) w1) as [w2 r].
    split; reflexivity.
Qed.

(* ================================================================== *)
(** * More on the generation client *)
(* ================================================================== *)

(** What the scan of the parts can end with. *)
Lemma scan_parts_cases :
  forall ps acc,
    (Forall (fun q => GenAI.inlineData q = None) ps /\ scan_parts ps acc = acc) \/
    (exists before part after blob,
       ps = before ++ part :: after /\
       Forall (fun q => GenAI.inlineData q = None) before /\
       GenAI.inlineData part = Some blob /\
       scan_parts ps acc
       = Some ("data:image/png;base64," ++ Js.template (GenAI.data blob))%string).
Proof.
  induction ps as [| q ps IH]; intros acc.
  - left. split; [constructor | reflexivity].
  - destruct (GenAI.inlineData q) as [blob |] eqn:Hq.
    + right. exists [], q, ps, blob. simpl. rewrite Hq. repeat split. constructor.
    + destruct (IH acc) as [[Hnone Hscan] | (before & part & after & blob & -> & Hb & Hp & Hscan)].
      * left. split; [now constructor |]. simpl. now rewrite Hq.
      * right. exists (q :: before), part, after, blob. simpl. rewrite Hq.
        repeat split; try assumption. now constructor.
Qed.

Lemma or_else_nonempty :
  forall v c d, exists c' m, Js.or_else v (String c d) = String c' m.
Proof.
  intros [[| c' m] |] c d; simpl; eauto.
Qed.

(** The part of the client after the [await] leaves the clients and the
    network as they are. *)
Lemma read_response_world :
  forall response w, fst (read_response response w) = w.
Proof.
  intros response w. unfold read_response.
  destruct (GenAI.candidates response) as [[| c cs] |]; try reflexivity.
  destruct (scan_parts _ _) as [[| ch uri] |]; reflexivity.
Qed.

(** The requests of a call: one with a credential, none without. *)
Lemma generateVerticalImage_network :
  forall env remote imageBase64 mimeType prompt w,
    network (fst (generateVerticalImage env remote imageBase64 mimeType prompt w))
    = network w ++
      (if Js.truthy (API_KEY env) then [request_of imageBase64 mimeType prompt] else []).
Proof.
  intros env remote imageBase64 mimeType prompt w.
  destruct (Js.truthy (API_KEY env)) eqn:Hkey.
  - rewrite generateVerticalImage_configured by assumption.
    unfold try_catch.
    pose proof (try_body_network remote imageBase64 mimeType prompt
                  (World_add_client (API_KEY env) w)) as Hnet.
    destruct (try_body remote imageBase64 mimeType prompt
                (World_add_client (API_KEY env) w)) as [w1 [e | uri]];
      simpl in Hnet |- *; exact Hnet.
  - unfold generateVerticalImage. rewrite Hkey. simpl. now rewrite app_nil_r.
Qed.

(** The shape of what a call settles with. *)
Lemma generateVerticalImage_settled_shape :
  forall env remote imageBase64 mimeType prompt w,
    match snd (generateVerticalImage env remote imageBase64 mimeType prompt w) with
    | inl err => exists c m, message err = Some (String c m)
    | inr uri => exists rest, uri = ("data:image/png;base64," ++ rest)%string
    end.
Proof.
  intros env remote imageBase64 mimeType prompt w.
  unfold generateVerticalImage.
  destruct (Js.truthy (API_KEY env)); simpl; [| eauto].
  unfold bind, new_GoogleGenAI, try_catch, try_body, bind, generateContent.
  destruct (remote (request_of imageBase64 mimeType prompt)) as [raised | response].
  - simpl. destruct (message raised) as [[| c m] |]; simpl; eauto.
  - unfold read_response.
    destruct (GenAI.candidates response) as [[| candidate0 others] |];
      try (simpl; eauto).
    destruct (scan_parts_cases (GenAI.parts (GenAI.content candidate0)) None)
      as [[_ Hscan] | (before & part & after & blob & _ & _ & _ & Hscan)];
      rewrite Hscan; simpl; eauto.
Qed.

(** X1: the call resolves only with a credential and only when the remote
    endpoint answered and the first candidate of its answer has a part with
    inline data; the result is then [data:image/png;base64,] followed by
    the payload of the first such part, whatever MIME type that part
    declares. *)
Theorem generateVerticalImage_resolves_only_with_image :
  forall env remote imageBase64 mimeType prompt w uri,
    snd (generateVerticalImage env remote imageBase64 mimeType prompt w) = inr uri ->
    Js.truthy (API_KEY env) = true /\
    exists response candidate0 others before part after blob,
      remote (request_of imageBase64 mimeType prompt) = inr response /\
      GenAI.candidates response = Some (candidate0 :: others) /\
      GenAI.parts (GenAI.content candidate0) = before ++ part :: after /\
      Forall (fun q => GenAI.inlineData q = None) before /\
      GenAI.inlineData part = Some blob /\
      uri = ("data:image/png;base64," ++ Js.template (GenAI.data blob))%string.
Proof.
  intros env remote imageBase64 mimeType prompt w uri Hres.
  destruct (Js.truthy (API_KEY env)) eqn:Hkey.
  - split; [reflexivity |].
    rewrite generateVerticalImage_configured in Hres by assumption.
    unfold try_catch, try_body, bind, generateContent in Hres.
    destruct (remote (request_of imageBase64 mimeType prompt)) as [e | response] eqn:Hremote;
      [discriminate Hres |].
    unfold read_response in Hres.
    destruct (GenAI.candidates response) as [[| candidate0 others] |] eqn:Hcands;
      try discriminate Hres.
    destruct (scan_parts_cases (GenAI.parts (GenAI.content candidate0)) None)
      as [[_ Hscan] | (before & part & after & blob & Hparts & Hb & Hp & Hscan)];
      rewrite Hscan in Hres; [discriminate Hres |].
    simpl in Hres. inversion Hres; subst uri.
    exists response, candidate0, others, before, part, after, blob.
    repeat split; assumption.
  - unfold generateVerticalImage in Hres. rewrite Hkey in Hres. discriminate Hres.
Qed.

Lemma generateVerticalImage_resolves_only_with_image_witness :
  Js.truthy (API_KEY env_configured) = true /\
  exists response candidate0 others before part after blob,
    always (inr response_jpeg) (request_of (Some "UkVE") "image/png" "") = inr response /\
    GenAI.candidates response = Some (candidate0 :: others) /\
    GenAI.parts (GenAI.content candidate0) = before ++ part :: after /\
    Forall (fun q => GenAI.inlineData q = None) before /\
    GenAI.inlineData part = Some blob /\
    "data:image/png;base64,SlBFRw=="
    = ("data:image/png;base64," ++ Js.template (GenAI.data blob))%string.
Proof.
  apply (generateVerticalImage_resolves_only_with_image
           env_configured (always (inr response_jpeg)) (Some "UkVE") "image/png" ""
           empty_world "data:image/png;base64,SlBFRw==").
  reflexivity.
Defined.

(** X2: an error the call rejects with always carries a message, and the
    message is never empty. *)
Theorem generateVerticalImage_rejection_has_message :
  forall env remote imageBase64 mimeType prompt w err,
    snd (generateVerticalImage env remote imageBase64 mimeType prompt w) = inl err ->
    exists c m, message err = Some (String c m).
Proof.
  intros env remote imageBase64 mimeType prompt w err Hres.
  destruct (Js.truthy (API_KEY env)) eqn:Hkey.
  - rewrite generateVerticalImage_configured in Hres by assumption.
    unfold try_catch in Hres.
    destruct (try_body remote imageBase64 mimeType prompt _) as [w1 [raised | uri]];
      [| discriminate Hres].
    unfold catch_block, bind, console_error, throw in Hres. simpl in Hres.
    inversion Hres; subst err. simpl.
    destruct (or_else_nonempty (message raised) "F" "ailed to generate image.")
      as (c & m & Hm).
    exists c, m. now f_equal.
  - unfold generateVerticalImage in Hres. rewrite Hkey in Hres.
    inversion Hres; subst err. simpl. eauto.
Qed.

Lemma generateVerticalImage_rejection_has_message_witness :
  exists c m, message (new_Error "Failed to generate image.") = Some (String c m).
Proof.
  apply (generateVerticalImage_rejection_has_message
           env_configured remote_fails_silently (Some "UkVE") "image/png" ""
           empty_world (new_Error "Failed to generate image.")).
  reflexivity.
Defined.

(** X3: with a credential, every call constructs one client, with the
    configured key; a call that resolves writes nothing to the console, a
    transport error is written to the console as it was raised, and an
    answer that is turned down is written with the message the call then
    rejects with. *)
Theorem generateVerticalImage_console :
  forall env remote imageBase64 mimeType prompt w,
    Js.truthy (API_KEY env) = true ->
    clients (fst (generateVerticalImage env remote imageBase64 mimeType prompt w))
    = clients w ++ [API_KEY env] /\
    console (fst (generateVerticalImage env remote imageBase64 mimeType prompt w))
    = console w ++
      match remote (request_of imageBase64 mimeType prompt),
            snd (generateVerticalImage env remote imageBase64 mimeType prompt w) with
      | inl raised, _ => [raised]
      | inr _, inl err => [err]
      | inr _, inr _ => []
      end.
Proof.
  intros env remote imageBase64 mimeType prompt w Hkey.
  rewrite generateVerticalImage_configured by assumption.
  unfold try_catch, try_body, bind, generateContent.
  destruct (remote (request_of imageBase64 mimeType prompt)) as [raised | response].
  - simpl. split; reflexivity.
  - unfold read_response.
    destruct (GenAI.candidates response) as [[| c cs] |]; try (simpl; split; reflexivity).
    destruct (scan_parts _ _) as [[| ch uri] |]; simpl; split;
      try reflexivity; now rewrite app_nil_r.
Qed.

Lemma generateVerticalImage_console_witness :
  clients (fst (generateVerticalImage env_configured remote_fails_silently
                  (Some "UkVE") "image/png" "" empty_world))
  = [Some "test-key"] /\
  console (fst (generateVerticalImage env_configured remote_fails_silently
                  (Some "UkVE") "image/png" "" empty_world))
  = [{| message := None |}].
Proof.
  apply (generateVerticalImage_console
           env_configured remote_fails_silently (Some "UkVE") "image/png" "" empty_world).
  reflexivity.
Defined.

(** X4: every request a call sends names the model
    [gemini-2.5-flash-image], asks for the aspect ratio [9:16], and carries
    no empty text part. *)
Theorem generateVerticalImage_request_envelope :
  forall env remote imageBase64 mimeType prompt w,
    exists sent,
      network (fst (generateVerticalImage env remote imageBase64 mimeType prompt w))
      = network w ++ sent /\
      forall request, In request sent ->
        GenAI.model request = "gemini-2.5-flash-image" /\
        GenAI.aspectRatio (GenAI.imageConfig (GenAI.config request)) = "9:16" /\
        forall part, In part (GenAI.parts (GenAI.contents request)) ->
          GenAI.text part <> Some "".
Proof.
  intros env remote imageBase64 mimeType prompt w.
  destruct (Js.truthy (API_KEY env)) eqn:Hkey.
  - exists [request_of imageBase64 mimeType prompt]. split.
    + rewrite generateVerticalImage_configured by assumption.
      unfold try_catch.
      pose proof (try_body_network remote imageBase64 mimeType prompt
                    (World_add_client (API_KEY env) w)) as Hnet.
      destruct (try_body remote imageBase64 mimeType prompt
                  (World_add_client (API_KEY env) w)) as [w1 [e | uri]];
        simpl in Hnet |- *; exact Hnet.
    + intros request [<- | []]. split; [reflexivity | split; [reflexivity |]].
      intros part [<- | [<- | []]]; simpl; [discriminate |].
      destruct prompt; discriminate.
  - exists []. split.
    + unfold generateVerticalImage. rewrite Hkey. simpl. now rewrite app_nil_r.
    + intros request [].
Qed.

(** X5: an inline part counts as the image even when its payload is
    missing: the call then resolves with [data:image/png;base64,undefined],
    and a later part that has a payload is not looked at. *)
Theorem generateVerticalImage_missing_payload :
  forall env remote imageBase64 mimeType prompt w
         response candidate0 others before part after blob,
    Js.truthy (API_KEY env) = true ->
    remote (request_of imageBase64 mimeType prompt) = inr response ->
    GenAI.candidates response = Some (candidate0 :: others) ->
    GenAI.parts (GenAI.content candidate0) = before ++ part :: after ->
    Forall (fun q => GenAI.inlineData q = None) before ->
    GenAI.inlineData part = Some blob ->
    GenAI.data blob = None ->
    snd (generateVerticalImage env remote imageBase64 mimeType prompt w)
    = inr "data:image/png;base64,undefined".
Proof.
  intros env remote imageBase64 mimeType prompt w response candidate0 others
         before part after blob Hkey Hremote Hcands Hparts Hbefore Hpart Hdata.
  rewrite generateVerticalImage_configured by assumption.
  unfold try_catch, try_body, bind, generateContent.
  rewrite Hremote. unfold read_response. rewrite Hcands, Hparts.
  rewrite (scan_parts_first_inline before part after blob None Hbefore Hpart).
  rewrite Hdata. reflexivity.
Qed.

Lemma generateVerticalImage_missing_payload_witness :
  snd (generateVerticalImage env_configured (always (inr response_hollow))
         (Some "UkVE") "image/png" "" empty_world)
  = inr "data:image/png;base64,undefined".
Proof.
  apply (generateVerticalImage_missing_payload
           env_configured (always (inr response_hollow))
           (Some "UkVE") "image/png" "" empty_world
           response_hollow (candidate_of [ hollow_part; inline_part "QkxVRQ==" ])
           [] [] hollow_part [ inline_part "QkxVRQ==" ]
           {| GenAI.data := None; GenAI.mimeType := Some "image/png" |}).
  - reflexivity.
  - reflexivity.
  - reflexivity.
  - reflexivity.
  - constructor.
  - reflexivity.
  - reflexivity.
Defined.

(* ================================================================== *)
(** * More on the handlers of [App] *)
(* ================================================================== *)

(** X6: in a run of [handleGenerate] in which the client resolves, the
    final state holds the returned URI as the generated result, has no
    error (an earlier one is cleared), is not loading and shows no progress
    label; the source image and the prompt are as before. *)
Theorem handleGenerate_resolved :
  forall client s w image w' resultUrl,
    sourceImage s = Some image ->
    client (base64 image) (mimeType image) (prompt s) w = (w', inr resultUrl) ->
    generatedImage (fst (handleGenerate client s w)) = Some resultUrl /\
    processing (fst (handleGenerate client s w))
    = {| isLoading := false; error := None; progress := "" |} /\
    sourceImage (fst (handleGenerate client s w)) = sourceImage s /\
    prompt (fst (handleGenerate client s w)) = prompt s /\
    snd (handleGenerate client s w) = w'.
Proof.
  intros client s w image w' resultUrl Himage Hclient.
  unfold handleGenerate. rewrite Himage, Hclient. simpl.
  repeat split. exact Himage.
Qed.

Lemma handleGenerate_resolved_witness :
  generatedImage (fst (handleGenerate
                         (generateVerticalImage env_configured
                            (always (inr response_two_images)))
                         state_with_error empty_world))
  = Some "data:image/png;base64,QkxVRQ==" /\
  processing (fst (handleGenerate
                     (generateVerticalImage env_configured
                        (always (inr response_two_images)))
                     state_with_error empty_world))
  = {| isLoading := false; error := None; progress := "" |} /\
  sourceImage (fst (handleGenerate
                      (generateVerticalImage env_configured
                         (always (inr response_two_images)))
                      state_with_error empty_world))
  = sourceImage state_with_error /\
  prompt (fst (handleGenerate
                 (generateVerticalImage env_configured
                    (always (inr response_two_images)))
                 state_with_error empty_world))
  = "make it night" /\
  snd (handleGenerate
         (generateVerticalImage env_configured (always (inr response_two_images)))
         state_with_error empty_world)
  = fst (generateVerticalImage env_configured (always (inr response_two_images))
           (Some "UkVE") "image/png" "make it night" empty_world).
Proof.
  apply (handleGenerate_resolved
           (generateVerticalImage env_configured (always (inr response_two_images)))
           state_with_error empty_world
           {| file := png_file; previewUrl := "data:image/png;base64,UkVE";
              base64 := Some "UkVE"; mimeType := "image/png" |}
           (fst (generateVerticalImage env_configured (always (inr response_two_images))
                   (Some "UkVE") "image/png" "make it night" empty_world))
           "data:image/png;base64,QkxVRQ==").
  - reflexivity.
  - reflexivity.
Defined.

(** What a settled client leaves behind, whichever way it settled. *)
Lemma generate_settled_processing :
  forall r s,
    isLoading (processing (generate_settled r s)) = false /\
    progress (processing (generate_settled r s)) = "" /\
    sourceImage (generate_settled r s) = sourceImage s /\
    prompt (generate_settled r s) = prompt s.
Proof.
  intros [err | url] s; repeat split.
Qed.

(** X7: with the generation client of the repository, a run of
    [handleGenerate] on a state with a source image ends not loading and in
    one of two ways: the generated result is a [data:image/png;base64,] URI
    and there is no error, or there is an error whose text is not empty and
    the generated result is the one from before the run. *)
Theorem handleGenerate_outcome :
  forall env remote s w image,
    sourceImage s = Some image ->
    isLoading (processing (fst (handleGenerate (generateVerticalImage env remote) s w)))
    = false /\
    ((exists rest,
        generatedImage (fst (handleGenerate (generateVerticalImage env remote) s w))
        = Some ("data:image/png;base64," ++ rest)%string /\
        error (processing (fst (handleGenerate (generateVerticalImage env remote) s w)))
        = None) \/
     (exists c m,
        error (processing (fst (handleGenerate (generateVerticalImage env remote) s w)))
        = Some (String c m) /\
        generatedImage (fst (handleGenerate (generateVerticalImage env remote) s w))
        = generatedImage s)).
Proof.
  intros env remote s w image Himage.
  unfold handleGenerate. rewrite Himage.
  pose proof (generateVerticalImage_settled_shape env remote
                (base64 image) (mimeType image) (prompt s) w) as Hshape.
  destruct (generateVerticalImage env remote (base64 image) (mimeType image) (prompt s) w)
    as [w' [err | uri]]; simpl in Hshape.
  - split; [reflexivity |]. right.
    destruct Hshape as (c & m & Hm).
    exists c, m. simpl. rewrite Hm. split; reflexivity.
  - split; [reflexivity |]. left.
    destruct Hshape as [rest ->].
    exists rest. split; reflexivity.
Qed.

Lemma handleGenerate_outcome_witness :
  isLoading (processing (fst (handleGenerate
                                (generateVerticalImage env_unset
                                   (always (inr response_two_images)))
                                state_with_result empty_world)))
  = false /\
  ((exists rest,
      generatedImage (fst (handleGenerate
                             (generateVerticalImage env_unset
                                (always (inr response_two_images)))
                             state_with_result empty_world))
      = Some ("data:image/png;base64," ++ rest)%string /\
      error (processing (fst (handleGenerate
                                (generateVerticalImage env_unset
                                   (always (inr response_two_images)))
                                state_with_result empty_world)))
      = None) \/
   (exists c m,
      error (processing (fst (handleGenerate
                                (generateVerticalImage env_unset
                                   (always (inr response_two_images)))
                                state_with_result empty_world)))
      = Some (String c m) /\
      generatedImage (fst (handleGenerate
                             (generateVerticalImage env_unset
                                (always (inr response_two_images)))
                             state_with_result empty_world))
      = generatedImage state_with_result)).
Proof.
  apply (handleGenerate_outcome
           env_unset (always (inr response_two_images)) state_with_result empty_world
           {| file := png_file; previewUrl := "data:image/png;base64,UkVE";
              base64 := Some "UkVE"; mimeType := "image/png" |}).
  reflexivity.
Defined.

(** X8: a run of [handleGenerate] with the generation client of the
    repository sends one request when there is a source image and a
    credential, built from the stored raw base64, the stored MIME type and
    the prompt, and none otherwise; it changes neither the source image nor
    the prompt. *)
Theorem handleGenerate_requests :
  forall env remote s w,
    network (snd (handleGenerate (generateVerticalImage env remote) s w))
    = network w ++
      match sourceImage s with
      | Some image =>
          if Js.truthy (API_KEY env)
          then [request_of (base64 image) (mimeType image) (prompt s)]
          else []
      | None => []
      end /\
    sourceImage (fst (handleGenerate (generateVerticalImage env remote) s w))
    = sourceImage s /\
    prompt (fst (handleGenerate (generateVerticalImage env remote) s w)) = prompt s.
Proof.
  intros env remote s w. unfold handleGenerate.
  destruct (sourceImage s) as [image |] eqn:Himage.
  - pose proof (generateVerticalImage_network env remote
                  (base64 image) (mimeType image) (prompt s) w) as Hnet.
    destruct (generateVerticalImage env remote (base64 image) (mimeType image)
                (prompt s) w) as [w' r].
    cbn [fst snd] in Hnet |- *.
    destruct (generate_settled_processing r (generate_delayed (generate_started s)))
      as (_ & _ & Hsrc & Hprompt).
    split; [exact Hnet | split].
    + rewrite Hsrc. exact Himage.
    + rewrite Hprompt. reflexivity.
  - simpl. rewrite app_nil_r, Himage. repeat split.
Qed.

(** A string without a comma has no match of the pattern. *)
Lemma dot_star_then_no_comma :
  forall s, has_char "," s = false -> Js.dot_star_then ";base64," s = None.
Proof.
  intros s Hs.
  destruct (Js.dot_star_then ";base64," s) as [m |] eqn:Hm; [| reflexivity].
  destruct (dot_star_then_sound _ _ _ Hm) as [_ [rest ->]].
  rewrite !has_char_app in Hs. simpl in Hs. rewrite !orb_true_r in Hs. discriminate.
Qed.

(** When nothing after the literal holds a comma, the group captures all
    that stands before it. *)
Lemma dot_star_then_data_uri :
  forall m rest,
    single_line m = true ->
    has_char "," rest = false ->
    Js.dot_star_then ";base64," (m ++ ";base64," ++ rest)%string = Some m.
Proof.
  intros m rest Hm Hrest. induction m as [| c m IH].
  - simpl append. cbn [Js.dot_star_then].
    rewrite (dot_star_then_no_comma rest Hrest). now destruct rest.
  - simpl in Hm. apply andb_true_iff in Hm as [Hc Hm].
    apply negb_true_iff in Hc.
    change (String c m ++ ";base64," ++ rest)%string
      with (String c (m ++ ";base64," ++ rest)%string).
    cbn [Js.dot_star_then]. rewrite Hc, (IH Hm). reflexivity.
Qed.

Lemma match_data_uri_well_formed :
  forall mime payload,
    single_line mime = true ->
    has_char "," payload = false ->
    Js.match_data_uri ("data:" ++ mime ++ ";base64," ++ payload)%string = Some mime.
Proof.
  intros mime payload Hmime Hpayload. unfold Js.match_data_uri.
  rewrite (strip_prefix_app "data:"). now apply dot_star_then_data_uri.
Qed.

(** X9: from the data URI of a MIME type and a payload (one line, no comma
    in either), [handleImageSelected] recovers both: the stored record has
    that MIME type, that payload as its raw base64, and the data URI as its
    preview. *)
Theorem handleImageSelected_decodes_data_uri :
  forall file mime payload s,
    single_line mime = true ->
    has_char "," mime = false ->
    has_char "," payload = false ->
    sourceImage (handleImageSelected file ("data:" ++ mime ++ ";base64," ++ payload) s)
    = Some {| file := file;
              previewUrl := ("data:" ++ mime ++ ";base64," ++ payload)%string;
              base64 := Some payload;
              mimeType := mime |}.
Proof.
  intros file mime payload s Hline Hmime Hpayload.
  unfold handleImageSelected.
  cbn [sourceImage setProcessing setGeneratedImage setSourceImage].
  rewrite (split_data_uri mime payload Hmime Hpayload).
  rewrite (match_data_uri_well_formed mime payload Hline Hpayload).
  reflexivity.
Qed.

Lemma handleImageSelected_decodes_data_uri_witness :
  sourceImage (handleImageSelected png_file
                 ("data:" ++ "image/svg+xml" ++ ";base64," ++ "PHN2Zy8+") initialState)
  = Some {| file := png_file;
            previewUrl := ("data:" ++ "image/svg+xml" ++ ";base64," ++ "PHN2Zy8+")%string;
            base64 := Some "PHN2Zy8+";
            mimeType := "image/svg+xml" |}.
Proof.
  apply (handleImageSelected_decodes_data_uri
           png_file "image/svg+xml" "PHN2Zy8+" initialState);
    reflexivity.
Defined.

(** X10: when the uploaded string holds no comma, the stored raw base64 is
    [undefined] and the stored MIME type is the file's own type. *)
Theorem handleImageSelected_no_comma :
  forall file preview s,
    has_char "," preview = false ->
    sourceImage (handleImageSelected file preview s)
    = Some {| file := file; previewUrl := preview; base64 := None;
              mimeType := type file |}.
Proof.
  intros file preview s Hcomma.
  unfold handleImageSelected.
  cbn [sourceImage setProcessing setGeneratedImage setSourceImage].
  rewrite (split_no_sep _ _ Hcomma).
  assert (Hnone : Js.match_data_uri preview = None).
  { apply match_data_uri_none. intros m rest _ ->.
    rewrite !has_char_app in Hcomma. simpl in Hcomma.
    rewrite !orb_true_r in Hcomma. discriminate. }
  rewrite Hnone. reflexivity.
Qed.

Lemma handleImageSelected_no_comma_witness :
  sourceImage (handleImageSelected png_file "blob:3f0c" initialState)
  = Some {| file := png_file; previewUrl := "blob:3f0c"; base64 := None;
            mimeType := "image/png" |}.
Proof.
  apply (handleImageSelected_no_comma png_file "blob:3f0c" initialState).
  reflexivity.
Defined.

(** X11: an upload of a data URI (one line, no comma in the MIME type or
    the payload) followed by a run of [handleGenerate] with a credential
    sends one request, whose inline part carries exactly that payload and
    MIME type and whose text part is the prompt, or the default instruction
    when the prompt is empty. *)
Theorem upload_then_generate_request :
  forall env remote file mime payload s w,
    Js.truthy (API_KEY env) = true ->
    single_line mime = true ->
    has_char "," mime = false ->
    has_char "," payload = false ->
    exists request,
      network (snd (handleGenerate (generateVerticalImage env remote)
                      (handleImageSelected file
                         ("data:" ++ mime ++ ";base64," ++ payload) s) w))
      = network w ++ [request] /\
      GenAI.parts (GenAI.contents request)
      = [ {| GenAI.inlineData :=
               Some {| GenAI.data := Some payload; GenAI.mimeType := Some mime |};
             GenAI.text := None |};
          {| GenAI.inlineData := None;
             GenAI.text :=
               Some (if String.eqb (prompt s) ""
                     then "Transform this image to 9:16 portrait aspect ratio, maintaining the subject and style."
                     else prompt s) |} ].
Proof.
  intros env remote file mime payload s w Hkey Hline Hmime Hpayload.
  exists (request_of (Some payload) mime (prompt s)). split.
  - unfold handleGenerate, handleImageSelected.
    cbn [sourceImage setProcessing setGeneratedImage setSourceImage prompt
         base64 mimeType].
    rewrite (split_data_uri mime payload Hmime Hpayload).
    rewrite (match_data_uri_well_formed mime payload Hline Hpayload).
    pose proof (generateVerticalImage_network env remote (Some payload) mime
                  (prompt s) w) as Hnet.
    rewrite Hkey in Hnet.
    destruct (generateVerticalImage env remote (Some payload) mime (prompt s) w)
      as [w' r].
    exact Hnet.
  - unfold request_of. simpl. destruct (prompt s); reflexivity.
Qed.

Lemma upload_then_generate_request_witness :
  exists request,
    network (snd (handleGenerate
                    (generateVerticalImage env_configured
                       (always (inr response_two_images)))
                    (handleImageSelected png_file
                       ("data:" ++ "image/png" ++ ";base64," ++ "UkVE") initialState)
                    empty_world))
    = network empty_world ++ [request] /\
    GenAI.parts (GenAI.contents request)
    = [ {| GenAI.inlineData :=
             Some {| GenAI.data := Some "UkVE"; GenAI.mimeType := Some "image/png" |};
           GenAI.text := None |};
        {| GenAI.inlineData := None;
           GenAI.text :=
             Some (if String.eqb (prompt initialState) ""
                   then "Transform this image to 9:16 portrait aspect ratio, maintaining the subject and style."
                   else prompt initialState) |} ].
Proof.
  apply (upload_then_generate_request
           env_configured (always (inr response_two_images))
           png_file "image/png" "UkVE" initialState empty_world);
    reflexivity.
Defined.

(* ================================================================== *)
(** * [handleDownload] *)
(* ================================================================== *)

Lemma filter_remove_fresh :
  forall (l : list Element) n,
    Forall (fun e => element_id e < n) l ->
    filter (fun e => negb (Nat.eqb (element_id e) n)) l = l.
Proof.
  induction l as [| e l IH]; intros n Hall; simpl; [reflexivity |].
  inversion Hall as [| ? ? He Hl]; subst.
  assert (Hne : Nat.eqb (element_id e) n = false) by (apply Nat.eqb_neq; lia).
  rewrite Hne. simpl. f_equal. now apply IH.
Qed.

(** X12: on a document all of whose body children it created,
    [handleDownload] leaves the body as it was; when a non-empty generated
    result is stored it clicks exactly one new link, whose target is that
    result and whose file name is [ratioflip-], the time in decimal and
    [.png]; when there is no result it clicks nothing. *)
Theorem handleDownload_effect :
  forall now s d,
    well_formed_document d ->
    body (handleDownload now s d) = body d /\
    clicked (handleDownload now s d)
    = clicked d ++
      match generatedImage s with
      | Some (String c url) =>
          [ {| element_id := created d;
               href := String c url;
               download := ("ratioflip-" ++ template_number now ++ ".png")%string |} ]
      | Some EmptyString => []
      | None => []
      end /\
    well_formed_document (handleDownload now s d).
Proof.
  intros now s d Hwf. unfold handleDownload.
  destruct (generatedImage s) as [[| c url] |].
  - rewrite app_nil_r. repeat split. exact Hwf.
  - unfold removeChild, click, appendChild, well_formed_document in *.
    cbn [body created clicked element_id].
    rewrite filter_app. rewrite (filter_remove_fresh _ _ Hwf).
    cbn [filter element_id]. rewrite Nat.eqb_refl. cbn [negb].
    rewrite app_nil_r. repeat split.
    eapply Forall_impl; [| exact Hwf]. intros e He. simpl in He. lia.
  - rewrite app_nil_r. repeat split. exact Hwf.
Qed.

Lemma handleDownload_effect_witness :
  body (handleDownload 1762149600123 state_with_result empty_document) = [] /\
  clicked (handleDownload 1762149600123 state_with_result empty_document)
  = [ {| element_id := 0;
         href := "data:image/png;base64,QkxVRQ==";
         download := "ratioflip-1762149600123.png" |} ] /\
  well_formed_document (handleDownload 1762149600123 state_with_result empty_document).
Proof.
  apply (handleDownload_effect 1762149600123 state_with_result empty_document).
  constructor.
Defined.

Lemma string_length_app :
  forall a b : string, String.length (a ++ b) = String.length a + String.length b.
Proof.
  induction a as [| c a IH]; intros b; simpl; [reflexivity | now rewrite IH].
Qed.

Lemma string_app_inv_tail :
  forall a b t : string, (a ++ t = b ++ t)%string -> a = b.
Proof.
  induction a as [| c a IH]; intros [| c' b] t H; simpl in H.
  - reflexivity.
  - apply (f_equal String.length) in H. simpl in H.
    rewrite string_length_app in H. lia.
  - apply (f_equal String.length) in H. simpl in H.
    rewrite string_length_app in H. lia.
  - inversion H; subst. f_equal. now apply (IH b t).
Qed.

Lemma template_number_inj :
  forall a b, template_number a = template_number b -> a = b.
Proof.
  intros a b H. unfold template_number in H.
  apply DecimalZ.to_int_inj.
  assert (Hs : Some (Z.to_int a) = Some (Z.to_int b)).
  { rewrite <- (NilEmpty.isi (Z.to_int a)), <- (NilEmpty.isi (Z.to_int b)).
    now rewrite H. }
  now inversion Hs.
Qed.

(** X13: two downloads whose links carry the same file name were started
    at the same time [Date.now()]; downloads at different times get
    different file names. *)
Theorem handleDownload_name_determines_time :
  forall now now' s s' d d' link link',
    In link (clicked (handleDownload now s d)) ->
    ~ In link (clicked d) ->
    In link' (clicked (handleDownload now' s' d')) ->
    ~ In link' (clicked d') ->
    download link = download link' ->
    now = now'.
Proof.
  intros now now' s s' d d' link link' Hin Hnew Hin' Hnew' Hname.
  assert (Hlink : forall t st doc l,
             In l (clicked (handleDownload t st doc)) ->
             ~ In l (clicked doc) ->
             download l = ("ratioflip-" ++ template_number t ++ ".png")%string).
  { intros t st doc l Hl Hfresh. unfold handleDownload in Hl.
    destruct (generatedImage st) as [[| c url] |]; try (now elim Hfresh).
    unfold removeChild, click, appendChild in Hl. cbn [clicked] in Hl.
    apply in_app_or in Hl as [Hold | [<- | []]]; [now elim Hfresh | reflexivity]. }
  rewrite (Hlink _ _ _ _ Hin Hnew), (Hlink _ _ _ _ Hin' Hnew') in Hname.
  simpl in Hname. inversion Hname as [Htail].
  apply string_app_inv_tail in Htail.
  now apply template_number_inj.
Qed.

Lemma handleDownload_name_determines_time_witness :
  1762149600123%Z = 1762149600123%Z.
Proof.
  apply (handleDownload_name_determines_time
           1762149600123 1762149600123 state_with_result state_with_result
           empty_document
           {| body := []; created := 7; clicked := [] |}
           {| element_id := 0; href := "data:image/png;base64,QkxVRQ==";
              download := "ratioflip-1762149600123.png" |}
           {| element_id := 7; href := "data:image/png;base64,QkxVRQ==";
              download := "ratioflip-1762149600123.png" |}).
  - left. reflexivity.
  - intros [].
  - left. reflexivity.
  - intros [].
  - reflexivity.
Defined.

(* ================================================================== *)
(** * Invariants of the session *)
(* ================================================================== *)

(** A property that every event keeps holds after every sequence of
    events. *)
Lemma run_events_invariant :
  forall env (P : Session -> Prop),
    (forall e x, P x -> P (step env e x)) ->
    forall es x, P x -> P (run_events env es x).
Proof.
  intros env P Hstep es. unfold run_events.
  induction es as [| e es IH]; intros x Hx; simpl; [exact Hx |].
  apply IH. now apply Hstep.
Qed.

Lemma after_await_shape :
  forall outcome w,
    match snd (after_await outcome w) with
    | inl err => exists c m, message err = Some (String c m)
    | inr uri => exists rest, uri = ("data:image/png;base64," ++ rest)%string
    end.
Proof.
  intros [raised | response] w; unfold after_await, try_catch, bind.
  - simpl. destruct (message raised) as [[| c m] |]; simpl; eauto.
  - unfold read_response.
    destruct (GenAI.candidates response) as [[| candidate0 others] |];
      try (simpl; eauto).
    destruct (scan_parts_cases (GenAI.parts (GenAI.content candidate0)) None)
      as [[_ Hscan] | (before & part & after & blob & _ & _ & _ & Hscan)];
      rewrite Hscan; simpl; eauto.
Qed.

Lemma after_await_network :
  forall outcome w, network (fst (after_await outcome w)) = network w.
Proof.
  intros [raised | response] w; unfold after_await, try_catch, bind.
  - reflexivity.
  - pose proof (read_response_world response w) as Hw.
    destruct (read_response response w) as [w1 [err | uri]]; simpl in Hw; subst w1;
      reflexivity.
Qed.

Lemma client_begin_network :
  forall env imageBase64 mimeType prompt w,
    match client_begin env imageBase64 mimeType prompt w with
    | (w1, inl _) => network w1 = network w
    | (w1, inr request) => network w1 = network w ++ [request]
    end.
Proof.
  intros env imageBase64 mimeType prompt w. unfold client_begin.
  destruct (Js.truthy (API_KEY env)); reflexivity.
Qed.

Lemma nth_error_split :
  forall (A : Type) (l : list A) i a,
    nth_error l i = Some a -> l = firstn i l ++ a :: skipn (S i) l.
Proof.
  intros A l. induction l as [| b l IH]; intros [| i] a H; simpl in *;
    try discriminate.
  - now inversion H.
  - f_equal. now apply IH.
Qed.

Lemma delaying_app :
  forall l1 l2, delaying (l1 ++ l2) = delaying l1 + delaying l2.
Proof.
  induction l1 as [| run l1 IH]; intros l2; simpl; [reflexivity |].
  destruct (run_phase run); simpl; now rewrite IH.
Qed.

(** The error banner of a settled run is never empty. *)
Lemma generate_rejected_error :
  forall err s,
    exists c m, error (processing (generate_settled (inl err) s)) = Some (String c m).
Proof.
  intros err s. simpl.
  destruct (or_else_nonempty (message err) "S" "omething went wrong") as (c & m & ->).
  eauto.
Qed.

(** X14: in every session that events can lead to, a set loading flag
    means that a run of [handleGenerate] is still unfinished; the flag is
    never left set with nothing to clear it. *)
Theorem loading_has_unfinished_run :
  forall env es,
    isLoading (processing (app (run_events env es initialSession))) = true ->
    runs (run_events env es initialSession) <> [].
Proof.
  intros env es.
  apply (run_events_invariant env
           (fun x => isLoading (processing (app x)) = true -> runs x <> []));
    [| discriminate].
  intros e x Hinv.
  destruct e as [file dataUrl | | | | | value | i | i outcome]; simpl.
  - destruct (_ && _); [discriminate | exact Hinv].
  - destruct (_ && _); [discriminate | exact Hinv].
  - destruct (change_image_rendered _); [discriminate | exact Hinv].
  - destruct (generate_disabled _); [exact Hinv |].
    unfold begin_generate. destruct (sourceImage (app x)); [| exact Hinv].
    intros _. simpl. now destruct (runs x).
  - destruct (_ && _); [| exact Hinv].
    unfold begin_generate. destruct (sourceImage (app x)); [| exact Hinv].
    intros _. simpl. now destruct (runs x).
  - destruct (prompt_disabled _); exact Hinv.
  - destruct (nth_error (runs x) i) as [run |]; [| exact Hinv].
    destruct (run_phase run); [| exact Hinv].
    unfold resume_after_timer.
    destruct (client_begin _ _ _ _ _) as [w [err | request]]; simpl.
    + discriminate.
    + intros _. unfold replace_nth. now destruct (firstn i (runs x)).
  - destruct (nth_error (runs x) i) as [run |]; [| exact Hinv].
    destruct (run_phase run); [exact Hinv |].
    unfold resume_after_client.
    destruct (after_await _ _) as [w [err | uri]]; simpl; discriminate.
Qed.

Lemma loading_has_unfinished_run_witness :
  runs (run_events env_configured
          [Upload png_file "data:image/png;base64,UkVE"; ClickGenerate; TimerElapsed 0]
          initialSession) <> [].
Proof.
  apply (loading_has_unfinished_run env_configured
           [Upload png_file "data:image/png;base64,UkVE"; ClickGenerate; TimerElapsed 0]).
  reflexivity.
Defined.

Lemma step_requests :
  forall env e x,
    length (network (world (step env e x))) + delaying (runs (step env e x))
    <= length (network (world x)) + delaying (runs x)
       + (if is_generate_click e then 1 else 0).
Proof.
  intros env e x.
  destruct e as [file dataUrl | | | | | value | i | i outcome]; simpl.
  - destruct (_ && _); simpl; lia.
  - destruct (_ && _); simpl; lia.
  - destruct (change_image_rendered _); simpl; lia.
  - destruct (generate_disabled _); [lia |].
    unfold begin_generate. destruct (sourceImage (app x)); simpl; [| lia].
    rewrite delaying_app. simpl. lia.
  - destruct (_ && _); [| lia].
    unfold begin_generate. destruct (sourceImage (app x)); simpl; [| lia].
    rewrite delaying_app. simpl. lia.
  - destruct (prompt_disabled _); simpl; lia.
  - destruct (nth_error (runs x) i) as [run |] eqn:Hnth; [| lia].
    destruct (run_phase run) eqn:Hphase; [| lia].
    pose proof (nth_error_split _ _ _ _ Hnth) as Hsplit.
    assert (Hd : delaying (runs x)
                 = delaying (firstn i (runs x)) + S (delaying (skipn (S i) (runs x)))).
    { rewrite Hsplit at 1. rewrite delaying_app. simpl. now rewrite Hphase. }
    unfold resume_after_timer.
    pose proof (client_begin_network env (base64 (run_image run))
                  (mimeType (run_image run)) (run_prompt run) (world x)) as Hnet.
    destruct (client_begin _ _ _ _ _) as [w [err | request]]; simpl.
    + unfold remove_nth. rewrite delaying_app, Hnet, Hd. lia.
    + unfold replace_nth. rewrite delaying_app, Hnet, Hd, length_app. simpl. lia.
  - destruct (nth_error (runs x) i) as [run |] eqn:Hnth; [| lia].
    destruct (run_phase run) eqn:Hphase; [lia |].
    pose proof (nth_error_split _ _ _ _ Hnth) as Hsplit.
    assert (Hd : delaying (runs x)
                 = delaying (firstn i (runs x)) + delaying (skipn (S i) (runs x))).
    { rewrite Hsplit at 1. rewrite delaying_app. simpl. now rewrite Hphase. }
    unfold resume_after_client.
    pose proof (after_await_network outcome (world x)) as Hnet.
    destruct (after_await outcome (world x)) as [w r]. simpl in Hnet |- *.
    unfold remove_nth. rewrite delaying_app, Hnet, Hd. lia.
Qed.

(** X15: the network never sees more requests than the user clicked a
    generate control (the generate or the regenerate button): no request is
    sent without a click, and no click leads to more than one request. *)
Theorem requests_bounded_by_clicks :
  forall env es,
    length (network (world (run_events env es initialSession))) <= generate_clicks es.
Proof.
  intros env es.
  assert (Hgen : forall x,
             length (network (world (run_events env es x)))
             + delaying (runs (run_events env es x))
             <= length (network (world x)) + delaying (runs x) + generate_clicks es).
  { unfold run_events, generate_clicks.
    induction es as [| e es IH]; intros x; simpl; [lia |].
    specialize (IH (step env e x)).
    pose proof (step_requests env e x) as Hstep.
    destruct (is_generate_click e); simpl; lia. }
  specialize (Hgen initialSession). simpl in Hgen. lia.
Qed.



(** What the component can show as result and as error. *)
Lemma step_display :
  forall env e x,
    ((forall uri, generatedImage (app x) = Some uri ->
                  exists rest, uri = ("data:image/png;base64," ++ rest)%string) /\
     (forall msg, error (processing (app x)) = Some msg -> msg <> "")) ->
    (forall uri, generatedImage (app (step env e x)) = Some uri ->
                 exists rest, uri = ("data:image/png;base64," ++ rest)%string) /\
    (forall msg, error (processing (app (step env e x))) = Some msg -> msg <> "").
Proof.
  intros env e x Hinv.
  destruct e as [file dataUrl | | | | | value | i | i outcome]; simpl.
  - destruct (_ && _); [split; discriminate | exact Hinv].
  - destruct (_ && _); [split; discriminate | exact Hinv].
  - destruct (change_image_rendered _); [split; discriminate | exact Hinv].
  - destruct (generate_disabled _); [exact Hinv |].
    unfold begin_generate. destruct (sourceImage (app x)); [| exact Hinv].
    simpl. split; [apply Hinv | discriminate].
  - destruct (_ && _); [| exact Hinv].
    unfold begin_generate. destruct (sourceImage (app x)); [| exact Hinv].
    simpl. split; [apply Hinv | discriminate].
  - destruct (prompt_disabled _); exact Hinv.
  - destruct (nth_error (runs x) i) as [run |]; [| exact Hinv].
    destruct (run_phase run); [| exact Hinv].
    unfold resume_after_timer.
    destruct (client_begin _ _ _ _ _) as [w [err | request]].
    + split; [apply Hinv |].
      intros msg Hmsg.
      destruct (generate_rejected_error err (generate_delayed (app x))) as (c & m & Hm).
      cbn [app] in Hmsg. rewrite Hm in Hmsg. inversion Hmsg. discriminate.
    + exact Hinv.
  - destruct (nth_error (runs x) i) as [run |]; [| exact Hinv].
    destruct (run_phase run); [exact Hinv |].
    unfold resume_after_client.
    pose proof (after_await_shape outcome (world x)) as Hshape.
    destruct (after_await outcome (world x)) as [w [err | uri]]; simpl in Hshape.
    + split; [apply Hinv |].
      intros msg Hmsg.
      destruct (generate_rejected_error err (app x)) as (c & m & Hm).
      cbn [app] in Hmsg. rewrite Hm in Hmsg. inversion Hmsg. discriminate.
    + split.
      * simpl. intros uri' Huri. inversion Huri; subst uri'. exact Hshape.
      * simpl. apply Hinv.
Qed.

(** X17: in every session that events can lead to, a generated result
    that is shown is a [data:image/png;base64,] URI, and an error that is
    stored has a text that is not empty. *)
Theorem shown_result_and_error :
  forall env es,
    (forall uri,
       generatedImage (app (run_events env es initialSession)) = Some uri ->
       exists rest, uri = ("data:image/png;base64," ++ rest)%string) /\
    (forall msg,
       error (processing (app (run_events env es initialSession))) = Some msg ->
       msg <> "").
Proof.
  intros env es.
  apply (run_events_invariant env
           (fun x =>
              (forall uri, generatedImage (app x) = Some uri ->
                           exists rest, uri = ("data:image/png;base64," ++ rest)%string) /\
              (forall msg, error (processing (app x)) = Some msg -> msg <> ""))).
  - intros e x. apply step_display.
  - split; discriminate.
Qed.

Lemma replace_nth_length :
  forall (A : Type) (l : list A) i a b,
    nth_error l i = Some b -> length (replace_nth i a l) = length l.
Proof.
  intros A l i a b H. rewrite (nth_error_split _ _ _ _ H) at 2.
  unfold replace_nth. rewrite !length_app. reflexivity.
Qed.

Lemma remove_nth_length :
  forall (A : Type) (l : list A) i b,
    nth_error l i = Some b -> S (length (remove_nth i l)) = length l.
Proof.
  intros A l i b H. rewrite (nth_error_split _ _ _ _ H) at 2.
  unfold remove_nth. rewrite !length_app. simpl. lia.
Qed.

(** X18: a run of [handleGenerate] gets under way only by a click on the
    generate or the regenerate button, only while the loading flag is
    clear, and only when a source image is stored; the run keeps that image
    and the prompt of that moment. *)
Theorem run_starts_only_idle_with_image :
  forall env e x,
    length (runs x) < length (runs (step env e x)) ->
    is_generate_click e = true /\
    isLoading (processing (app x)) = false /\
    exists image,
      sourceImage (app x) = Some image /\
      runs (step env e x)
      = runs x ++ [ {| run_image := image; run_prompt := prompt (app x);
                       run_phase := Delaying |} ].
Proof.
  intros env e x.
  destruct e as [file dataUrl | | | | | value | i | i outcome]; simpl.
  - destruct (_ && _); simpl; lia.
  - destruct (_ && _); simpl; lia.
  - destruct (change_image_rendered _); simpl; lia.
  - unfold generate_disabled.
    destruct (isLoading (processing (app x))); [rewrite orb_true_r; lia |].
    destruct (_ || _); [lia |].
    unfold begin_generate. destruct (sourceImage (app x)) as [image |]; [| lia].
    intros _. repeat split. now exists image.
  - unfold regenerate_disabled.
    destruct (isLoading (processing (app x))); [rewrite andb_false_r; lia |].
    destruct (_ && _); [| lia].
    unfold begin_generate. destruct (sourceImage (app x)) as [image |]; [| lia].
    intros _. repeat split. now exists image.
  - destruct (prompt_disabled _); simpl; lia.
  - destruct (nth_error (runs x) i) as [run |] eqn:Hnth; [| lia].
    destruct (run_phase run); [| lia].
    unfold resume_after_timer.
    destruct (client_begin _ _ _ _ _) as [w [err | request]]; simpl.
    + pose proof (remove_nth_length _ _ _ _ Hnth). lia.
    + rewrite (replace_nth_length _ _ _ _ _ Hnth). lia.
  - destruct (nth_error (runs x) i) as [run |] eqn:Hnth; [| lia].
    destruct (run_phase run); [lia |].
    unfold resume_after_client.
    destruct (after_await _ _) as [w r]; simpl.
    pose proof (remove_nth_length _ _ _ _ Hnth). lia.
Qed.

Lemma run_starts_only_idle_with_image_witness :
  is_generate_click ClickGenerate = true /\
  isLoading (processing state_with_result) = false /\
  exists image,
    sourceImage state_with_result = Some image /\
    runs (step env_configured ClickGenerate
            {| app := state_with_result; runs := []; world := empty_world |})
    = [] ++ [ {| run_image := image; run_prompt := prompt state_with_result;
                 run_phase := Delaying |} ].
Proof.
  apply (run_starts_only_idle_with_image env_configured ClickGenerate
           {| app := state_with_result; runs := []; world := empty_world |}).
  simpl. lia.
Defined.

Lemma click_generate_while_loading_witness :
  step env_configured ClickGenerate
    (run_events env_configured
       [Upload png_file "data:image/png;base64,UkVE"; ClickGenerate] initialSession)
  = run_events env_configured
      [Upload png_file "data:image/png;base64,UkVE"; ClickGenerate] initialSession /\
  step env_configured ClickRegenerate
    (run_events env_configured
       [Upload png_file "data:image/png;base64,UkVE"; ClickGenerate] initialSession)
  = run_events env_configured
      [Upload png_file "data:image/png;base64,UkVE"; ClickGenerate] initialSession.
Proof.
  apply (click_generate_while_loading env_configured
           (run_events env_configured
              [Upload png_file "data:image/png;base64,UkVE"; ClickGenerate]
              initialSession)).
  reflexivity.
Defined.




(* ================================================================== *)
(** * The uploader *)
(* ================================================================== *)



(** X21: while the uploader is disabled, no event raises an alert, reads
    a file or opens the file dialog, and none turns the drag highlight
    on. *)
Theorem uploader_disabled_is_inert :
  forall e u p,
    snd (uploader_step true e (u, p)) = p /\
    (isDragging (fst (uploader_step true e (u, p))) = true -> isDragging u = true).
Proof.
  intros e u p. destruct e as [| files | | | files]; simpl; split;
    try reflexivity; try (intros H; exact H); discriminate.
Qed.
